(** * Ocean Whisper Watch: credibility scoring, role resolution, dashboard
      filtering and report intake.

    A shallow embedding of the logic of the coastal-hazard reporting
    application:

    - [Scorer]: the PL/pgSQL function [calculate_credibility_score];
    - [Roles]: the [user_role] enum, the [user_roles] table, the SQL function
      [get_user_role] and the React hook [useUserRole]
      ([fetchUserRole], [hasRole]);
    - [Dashboard]: [MapDashboard]'s report filter and its realtime handlers;
    - [Intake]: [ReportForm]'s [handleSubmit];
    - [Policies]: the storage-layer role checks and the account-creation
      trigger [handle_new_user_role];
    - [Guard] and [IndexPage]: [RoleGuard] and the page that uses it;
    - [DashboardView]: markers, [fetchReports] and [formatTimestamp];
    - [IntakeView]: the outcomes of a submission and the row the database
      stores for it;
    - [Alerts]: [AlertsPanel]'s [fetchAlerts], its realtime handler and
      [sendAlert].

    Numbers of type DECIMAL(3,2) are represented exactly, as an integer number
    of hundredths. *)

From Stdlib Require Import ZArith QArith Qminmax List String DecimalString Bool Lia.
From Stdlib Require Import Sorted Permutation.
Import ListNotations.

Local Open Scope Z_scope.

(* ===================================================================== *)
(** ** DECIMAL(3,2) *)
(* ===================================================================== *)

Module Decimal.

(** A DECIMAL(3,2) value is [n / 100] for an integer [n] with [|n| < 1000].
    Every literal of the program (0.1, 0.2, 0.3, 0.4, 0.5, 0.7, 1.0) has at
    most two decimals, so sums and comparisons on hundredths are exact. *)
Definition decimal := Z.

Definition to_Q (d : decimal) : Q := d # 100.

End Decimal.

(* ===================================================================== *)
(** ** SQL three-valued conditions *)
(* ===================================================================== *)

Module Sql.

(** A nullable SQL value. *)
Definition nullable (A : Type) := option A.

(** [IF c THEN ... END IF] runs its body only when [c] is TRUE: a NULL
    condition counts as not true. *)
Definition is_true (c : nullable bool) : bool :=
  match c with
  | Some b => b
  | None => false
  end.

(** [x > k] on a nullable INTEGER: NULL when [x] is NULL. *)
Definition gt (x : nullable Z) (k : Z) : nullable bool :=
  match x with
  | Some v => Some (v >? k)
  | None => None
  end.

End Sql.

(* ===================================================================== *)
(** ** Credibility scorer *)
(* ===================================================================== *)

Module Scorer.
Import Decimal Sql.

(** [public.calculate_credibility_score], statement by statement. The local
    variable [score] is rebound after each IF; it never leaves the range of
    DECIMAL(3,2), the largest value assigned being 1.00. *)
Definition calculate_credibility_score
    (has_image has_location : nullable bool)
    (description_length nearby_reports_count : nullable Z) : decimal :=
  let score := 10 in
  let score := if is_true has_image then score + 30 else score in
  let score := if is_true has_location then score + 20 else score in
  let score := if is_true (gt description_length 50) then score + 10 else score in
  let score := if is_true (gt nearby_reports_count 0) then score + 30 else score in
  let score := if score >? 100 then 100 else score in
  score.

(** The call made by the client: every argument is present. *)
Definition score (hasImage hasLocation : bool)
    (descriptionLength nearbyReportsCount : Z) : decimal :=
  calculate_credibility_score (Some hasImage) (Some hasLocation)
    (Some descriptionLength) (Some nearbyReportsCount).

(** The formula of the specification, over the rationals: an indicator is 1
    when its condition holds and 0 otherwise. *)
Definition indicator (b : bool) : Q := if b then 1%Q else 0%Q.

Definition score_formula (hasImage hasLocation : bool)
    (descriptionLength nearbyReportsCount : Z) : Q :=
  Qmin
    ((1 # 10)
     + (3 # 10) * indicator hasImage
     + (2 # 10) * indicator hasLocation
     + (1 # 10) * indicator (descriptionLength >? 50)
     + (3 # 10) * indicator (nearbyReportsCount >? 0))%Q
    1%Q.

End Scorer.

(* ===================================================================== *)
(** ** JavaScript values *)
(* ===================================================================== *)

Module Js.

(** A JavaScript string is modelled by its sequence of code units; [!s] holds
    exactly for the empty string. *)
Definition falsy_string (s : string) : bool :=
  match s with
  | EmptyString => true
  | String _ _ => false
  end.

(** Truthiness of a possibly-null number: null and 0 are falsy. Coordinates
    are finite numbers, here rationals. *)
Definition truthy_number (x : option Q) : bool :=
  match x with
  | Some q => negb (Qeq_bool q 0)
  | None => false
  end.

(** [x || d] on a possibly-null DECIMAL(3,2) value received as a number. *)
Definition or_decimal (x : option Decimal.decimal) (d : Decimal.decimal)
  : Decimal.decimal :=
  match x with
  | Some v => if v =? 0 then d else v
  | None => d
  end.

End Js.

(* ===================================================================== *)
(** ** Rows in SQL order *)
(* ===================================================================== *)

Module Query.

Section OrderBy.
Context {A : Type} (key : A -> Z).

(** Insertion of a row before the first row whose key is not smaller. *)
Fixpoint insert_by (x : A) (l : list A) : list A :=
  match l with
  | [] => [x]
  | y :: l' => if key x <=? key y then x :: l else y :: insert_by x l'
  end.

(** [ORDER BY key ASC], as a stable sort. *)
Definition order_by (l : list A) : list A := fold_right insert_by [] l.

End OrderBy.

(** [LIMIT n]. *)
Definition limit {A : Type} (n : nat) (l : list A) : list A := firstn n l.

End Query.

(* ===================================================================== *)
(** ** Roles *)
(* ===================================================================== *)

Module Roles.
Import Query.

(** [CREATE TYPE public.user_role AS ENUM ('citizen', 'authority', 'admin')]. *)
Inductive UserRole : Type := citizen | authority | admin.

(** PostgreSQL compares the values of an enum type by their position in the
    type's declaration. *)
Definition enum_position (r : UserRole) : Z :=
  match r with
  | citizen => 0
  | authority => 1
  | admin => 2
  end.

Definition UserRole_eqb (a b : UserRole) : bool :=
  enum_position a =? enum_position b.

(** A row of [public.user_roles] (the columns the role functions read). *)
Record user_roles_row : Type := {
  user_id : string;
  role : UserRole
}.

Definition user_roles := list user_roles_row.

(** The rows of a user: [WHERE user_id = _user_id]. *)
Definition rows_of (t : user_roles) (_user_id : string) : user_roles :=
  filter (fun r => String.eqb (user_id r) _user_id) t.

(** [public.has_role]. *)
Definition has_role (t : user_roles) (_user_id : string) (_role : UserRole)
  : bool :=
  existsb (fun r => String.eqb (user_id r) _user_id && UserRole_eqb (role r) _role) t.

(** The sort key of [get_user_role]:
    [CASE role WHEN 'admin' THEN 1 WHEN 'authority' THEN 2 WHEN 'citizen' THEN 3 END]. *)
Definition case_role (r : UserRole) : Z :=
  match r with
  | admin => 1
  | authority => 2
  | citizen => 3
  end.

(** [public.get_user_role]: NULL (here [None]) when the user has no row. *)
Definition get_user_role (t : user_roles) (_user_id : string)
  : option UserRole :=
  hd_error
    (map role
       (limit 1 (order_by (fun r => case_role (role r)) (rows_of t _user_id)))).

(** *** The client hook [useUserRole] *)

(** The signed-in user. Identifiers are UUIDs in text form, so the identifier
    of a user is never the empty string; the hook nevertheless tests
    [!user?.id], which the model keeps. *)
Record User : Type := { id : string }.

Record PostgrestError : Type := { code : string; message : string }.

(** What the awaited query resolves to: [{ data, error }]. *)
Record response (A : Type) : Type := {
  data : option A;
  error : option PostgrestError
}.
Arguments data {A} _.
Arguments error {A} _.

(** [.single()]: exactly one row is expected; otherwise the response carries
    the error PGRST116 and no data. *)
Definition single {A : Type} (rows : list A) : response A :=
  match rows with
  | [r] => {| data := Some r; error := None |}
  | _ =>
      {| data := None;
         error := Some {| code := "PGRST116";
                          message := "JSON object requested, multiple (or no) rows returned" |} |}
  end.

(** The role service as the hook sees it: it answers from the table, answers
    with an error, or the request does not complete (the awaited promise
    rejects). *)
Inductive service : Type :=
| Serving (t : user_roles)
| Failing (e : PostgrestError)
| Rejecting.

Inductive awaited (A : Type) : Type :=
| Resolved (r : A)
| Rejected.
Arguments Resolved {A} _.
Arguments Rejected {A}.

(** [from('user_roles').select('role').eq('user_id', id)
      .order('role', { ascending: true }).limit(1).single()]. *)
Definition select_role (s : service) (uid : string)
  : awaited (response UserRole) :=
  match s with
  | Serving t =>
      Resolved
        (single
           (map role
              (limit 1 (order_by (fun r => enum_position (role r)) (rows_of t uid)))))
  | Failing e => Resolved {| data := None; error := Some e |}
  | Rejecting => Rejected
  end.

(** The state of the hook. *)
Record hook : Type := {
  current_role : option UserRole;
  loading : bool
}.

(** [data?.role || 'citizen']. *)
Definition role_or_citizen (d : option UserRole) : UserRole :=
  match d with
  | Some r => r
  | None => citizen
  end.

(** [fetchUserRole]: the state of the hook once the effect has run. *)
Definition fetchUserRole (s : service) (user : option User) : hook :=
  match user with
  | None => {| current_role := None; loading := false |}
  | Some u =>
      if Js.falsy_string (id u) then
        {| current_role := None; loading := false |}
      else
        match select_role s (id u) with
        | Resolved r =>
            match error r with
            | Some e =>
                if negb (String.eqb (code e) "PGRST116") then
                  {| current_role := Some citizen; loading := false |}
                else
                  {| current_role := Some (role_or_citizen (data r));
                     loading := false |}
            | None =>
                {| current_role := Some (role_or_citizen (data r));
                   loading := false |}
            end
        | Rejected => {| current_role := Some citizen; loading := false |}
        end
  end.

(** [roleHierarchy = { admin: 3, authority: 2, citizen: 1 }]. *)
Definition roleHierarchy (r : UserRole) : Z :=
  match r with
  | admin => 3
  | authority => 2
  | citizen => 1
  end.

(** [hasRole], reading the hook's current role. *)
Definition hasRole (h : hook) (requiredRole : UserRole) : bool :=
  match current_role h with
  | None => false
  | Some r => roleHierarchy r >=? roleHierarchy requiredRole
  end.

Definition isAdmin (h : hook) : bool :=
  match current_role h with Some admin => true | _ => false end.

Definition isAuthority (h : hook) : bool :=
  match current_role h with Some authority | Some admin => true | _ => false end.

Definition isCitizen (h : hook) : bool :=
  match current_role h with Some citizen => true | _ => false end.

(** *** Vocabulary of the specification *)

(** The user has no row in the table. *)
Definition no_role_row (t : user_roles) (uid : string) : Prop :=
  forall x, In x t -> user_id x <> uid.

(** The lookup finds no row, or it fails: the service answers with an error
    or the request does not complete. *)
Definition no_row_or_lookup_failure (s : service) (uid : string) : Prop :=
  match s with
  | Serving t => no_role_row t uid
  | Failing _ => True
  | Rejecting => True
  end.

(** [r] is the highest-ranked role among the user's rows. *)
Definition highest_role (t : user_roles) (uid : string) (r : UserRole) : Prop :=
  In {| user_id := uid; role := r |} t
  /\ forall x, In x t -> user_id x = uid ->
               roleHierarchy (role x) <= roleHierarchy r.

(** [r] is the lowest-ranked role among the user's rows. *)
Definition lowest_role (t : user_roles) (uid : string) (r : UserRole) : Prop :=
  In {| user_id := uid; role := r |} t
  /\ forall x, In x t -> user_id x = uid ->
               roleHierarchy r <= roleHierarchy (role x).

(** A user holding the roles citizen and admin, as two rows. *)
Definition coast_guard : User := {| id := "3f1c9a52-0b7e-4d2a-9c41-6e8d5a7b1f20" |}.

Definition citizen_and_admin : user_roles :=
  [ {| user_id := id coast_guard; role := citizen |};
    {| user_id := id coast_guard; role := admin |} ].

End Roles.

(* ===================================================================== *)
(** ** Dashboard *)
(* ===================================================================== *)

Module Dashboard.
Import Decimal.

(** [Tables<"hazard_reports">]: a row of the report collection as the client
    receives it. [credibility_score] is a DECIMAL(3,2) column. *)
Record hazard_reports_row : Type := {
  id : string;
  user_id : string;
  hazard_type : string;
  description : string;
  location : string;
  contact_number : option string;
  image_url : option string;
  status : string;
  urgency : option string;
  credibility_score : option decimal;
  latitude : option Q;
  longitude : option Q;
  created_at : string;
  updated_at : string
}.

(** [HazardReport]: a row with its optional coordinate pair. *)
Record HazardReport : Type := {
  row : hazard_reports_row;
  coordinates : option (Q * Q)
}.

(** The mapping applied to every fetched or pushed row:
    [latitude && longitude ? [latitude, longitude] : undefined]. *)
Definition mappedReport (r : hazard_reports_row) : HazardReport :=
  {| row := r;
     coordinates :=
       if Js.truthy_number (latitude r) && Js.truthy_number (longitude r) then
         match latitude r, longitude r with
         | Some la, Some lo => Some (la, lo)
         | _, _ => None
         end
       else None |}.

(** [report.urgency !== filter]. *)
Definition urgency_differs (u : option string) (filter : string) : bool :=
  match u with
  | Some s => negb (String.eqb s filter)
  | None => true
  end.

(** The predicate passed to [reports.filter]. *)
Definition keeps (filter credibilityFilter : string) (report : HazardReport)
  : bool :=
  if negb (String.eqb filter "all") && urgency_differs (urgency (row report)) filter
  then false
  else if negb (String.eqb credibilityFilter "all") then
    let score := Js.or_decimal (credibility_score (row report)) 50 in
    if String.eqb credibilityFilter "high" && (score <? 70) then false
    else if String.eqb credibilityFilter "medium"
            && ((score <? 40) || (score >=? 70)) then false
    else if String.eqb credibilityFilter "low" && (score >=? 40) then false
    else true
  else true.

Definition filteredReports (filter credibilityFilter : string)
    (reports : list HazardReport) : list HazardReport :=
  List.filter (keeps filter credibilityFilter) reports.

(** [getCredibilityColor]. *)
Definition getCredibilityColor (credibilityScore : decimal) : string :=
  if credibilityScore >=? 70 then "#059669"
  else if credibilityScore >=? 40 then "#ea580c"
  else "#dc2626".

(** The handler of an INSERT change event:
    [setReports(prevReports => [mappedReport, ...prevReports])]. *)
Definition on_insert (newReport : hazard_reports_row)
    (prevReports : list HazardReport) : list HazardReport :=
  mappedReport newReport :: prevReports.

(** The handler of an UPDATE change event:
    [prevReports.map(report => report.id === updatedReport.id ? mappedReport : report)]. *)
Definition on_update (updatedReport : hazard_reports_row)
    (prevReports : list HazardReport) : list HazardReport :=
  map (fun report =>
         if String.eqb (id (row report)) (id updatedReport)
         then mappedReport updatedReport
         else report)
      prevReports.

(** The change events the dashboard subscribes to. *)
Inductive change_event : Type :=
| INSERT (new : hazard_reports_row)
| UPDATE (new : hazard_reports_row).

Definition handle (e : change_event) (reports : list HazardReport)
  : list HazardReport :=
  match e with
  | INSERT r => on_insert r reports
  | UPDATE r => on_update r reports
  end.

(** *** Sample reports: only the id, the urgency and the score vary *)

Definition sample_row (rid : string) (u : option string)
    (score : option decimal) : hazard_reports_row :=
  {| id := rid; user_id := "u-9"; hazard_type := "High Waves";
     description := "Waves over the sea wall"; location := "Marine Drive";
     contact_number := None; image_url := None; status := "submitted";
     urgency := u; credibility_score := score;
     latitude := Some (190176 # 10000)%Q; longitude := Some (728562 # 10000)%Q;
     created_at := "2025-09-13T10:58:58Z"; updated_at := "2025-09-13T10:58:58Z" |}.

Definition sample (rid : string) (u : option string) (score : option decimal)
  : HazardReport := mappedReport (sample_row rid u score).

(** *** The filter as the specification words it *)

(** The selections offered by the credibility filter. *)
Inductive credibility_selection : Type :=
| AllLevels | High | Medium | Low.

Definition selection_value (c : credibility_selection) : string :=
  match c with
  | AllLevels => "all"
  | High => "high"
  | Medium => "medium"
  | Low => "low"
  end.

(** The half-open bands: high is [score >= 0.70], medium is
    [0.40 <= score < 0.70], low is [score < 0.40]. *)
Definition in_band (c : credibility_selection) (score : decimal) : Prop :=
  match c with
  | AllLevels => True
  | High => 70 <= score
  | Medium => 40 <= score < 70
  | Low => score < 40
  end.

(** A report passes when the urgency filter is "all" or equals its urgency,
    and the credibility filter is "all" or its score lies in the band. *)
Definition passes (filter : string) (c : credibility_selection)
    (report : HazardReport) : Prop :=
  (filter = "all"%string \/ urgency (row report) = Some filter)
  /\ (c = AllLevels
      \/ exists score, credibility_score (row report) = Some score
                       /\ in_band c score).

(** The score the filter works with: a missing score counts as 0.50. *)
Definition effective_score (report : HazardReport) : decimal :=
  match credibility_score (row report) with
  | Some score => score
  | None => 50
  end.

Definition passes_effective (filter : string) (c : credibility_selection)
    (report : HazardReport) : Prop :=
  (filter = "all"%string \/ urgency (row report) = Some filter)
  /\ (c = AllLevels \/ in_band c (effective_score report)).

End Dashboard.

(* ===================================================================== *)
(** ** Report intake *)
(* ===================================================================== *)

Module Intake.
Import Decimal.

Record FormData : Type := {
  hazardType : string;
  description : string;
  location : string;
  contactNumber : string
}.

Record File : Type := { name : string }.

Record CurrentLocation : Type := { latitude : Q; longitude : Q }.

Record Toast : Type := {
  title : string;
  toast_description : string;
  variant : option string
}.

(** The object passed to [from('hazard_reports').insert]. *)
Record report_insert : Type := {
  ins_user_id : string;
  ins_hazard_type : string;
  ins_description : string;
  ins_location : string;
  ins_contact_number : option string;
  ins_latitude : option Q;
  ins_longitude : option Q;
  ins_image_url : option string;
  ins_credibility_score : decimal
}.

(** The arguments of the remote call [calculate_credibility_score]. *)
Record score_args : Type := {
  has_image : bool;
  has_location : bool;
  description_length : Z;
  nearby_reports_count : Z
}.

(** Requests sent to the backend, in the order they are issued. *)
Inductive request : Type :=
| Upload (fileName : string) (file : File)
| Rpc (args : score_args)
| Insert (r : report_insert).

(** What the backend answers during one submission. Each awaited call
    resolves to an object holding an optional error. *)
Record backend : Type := {
  now : Z;
  uploadError : option string;
  rpcError : option string;
  insertError : option string;
  publicUrl : string -> string
}.

(** The form component, the two stores it writes to, and what it shows. *)
Record state : Type := {
  user : option Roles.User;
  formData : FormData;
  imageFile : option File;
  imagePreview : string;
  currentLocation : option CurrentLocation;
  isSubmitting : bool;
  closed : bool;
  report_images : list (string * File);
  hazard_reports : list report_insert;
  requests : list request;
  toasts : list Toast;
  console : list string
}.

(** Thrown values: [Error] objects carry a message. *)
Inductive exception : Type :=
| Error (message : string)
| NotAnError.

Inductive completion (A : Type) : Type :=
| Normal (a : A)
| Throw (e : exception).
Arguments Normal {A} _.
Arguments Throw {A} _.

(** Computations of the submit handler: they read the backend's answers,
    update the state, and either complete or throw. *)
Definition M (A : Type) : Type := backend -> state -> completion A * state.

Definition ret {A : Type} (a : A) : M A := fun _ s => (Normal a, s).

Definition bind {A B : Type} (m : M A) (f : A -> M B) : M B :=
  fun b s =>
    match m b s with
    | (Normal a, s') => f a b s'
    | (Throw e, s') => (Throw e, s')
    end.

Definition throw {A : Type} (e : exception) : M A := fun _ s => (Throw e, s).

Definition get : M state := fun _ s => (Normal s, s).

Definition ask : M backend := fun b s => (Normal b, s).

Definition modify (f : state -> state) : M unit := fun _ s => (Normal tt, f s).

(** [try { body } catch (error) { handler } finally { final }]. *)
Definition try_catch_finally (body : M unit) (handler : exception -> M unit)
    (final : M unit) : M unit :=
  fun b s =>
    let (c, s1) :=
      match body b s with
      | (Normal a, s') => (Normal a, s')
      | (Throw e, s') => handler e b s'
      end in
    match final b s1 with
    | (Normal _, s2) => (c, s2)
    | (Throw e, s2) => (Throw e, s2)
    end.

Declare Scope intake_scope.
Delimit Scope intake_scope with intake.
Notation "x <- m ;; k" := (bind m (fun x => k))
  (at level 61, m at next level, right associativity) : intake_scope.
Notation "m ;;; k" := (bind m (fun _ => k))
  (at level 61, right associativity) : intake_scope.
Local Open Scope intake_scope.
Local Open Scope string_scope.

(** *** State updates *)

Definition with_form (s : state) (fd : FormData) (img : option File)
    (preview : string) (loc : option CurrentLocation) : state :=
  {| user := user s; formData := fd; imageFile := img; imagePreview := preview;
     currentLocation := loc; isSubmitting := isSubmitting s; closed := closed s;
     report_images := report_images s; hazard_reports := hazard_reports s;
     requests := requests s; toasts := toasts s; console := console s |}.

Definition with_isSubmitting (v : bool) (s : state) : state :=
  {| user := user s; formData := formData s; imageFile := imageFile s;
     imagePreview := imagePreview s; currentLocation := currentLocation s;
     isSubmitting := v; closed := closed s;
     report_images := report_images s; hazard_reports := hazard_reports s;
     requests := requests s; toasts := toasts s; console := console s |}.

Definition with_closed (s : state) : state :=
  {| user := user s; formData := formData s; imageFile := imageFile s;
     imagePreview := imagePreview s; currentLocation := currentLocation s;
     isSubmitting := isSubmitting s; closed := true;
     report_images := report_images s; hazard_reports := hazard_reports s;
     requests := requests s; toasts := toasts s; console := console s |}.

Definition with_backend (s : state) (imgs : list (string * File))
    (reports : list report_insert) (rq : request) : state :=
  {| user := user s; formData := formData s; imageFile := imageFile s;
     imagePreview := imagePreview s; currentLocation := currentLocation s;
     isSubmitting := isSubmitting s; closed := closed s;
     report_images := imgs; hazard_reports := reports;
     requests := requests s ++ [rq]; toasts := toasts s; console := console s |}.

Definition with_output (s : state) (ts : list Toast) (log : list string)
  : state :=
  {| user := user s; formData := formData s; imageFile := imageFile s;
     imagePreview := imagePreview s; currentLocation := currentLocation s;
     isSubmitting := isSubmitting s; closed := closed s;
     report_images := report_images s; hazard_reports := hazard_reports s;
     requests := requests s; toasts := ts; console := log |}.

(** *** Effects used by the handler *)

Definition toast (t : Toast) : M unit :=
  modify (fun s => with_output s (toasts s ++ [t]) (console s)).

Definition console_error (line : string) : M unit :=
  modify (fun s => with_output s (toasts s) (console s ++ [line])).

Definition setIsSubmitting (v : bool) : M unit := modify (with_isSubmitting v).

Definition resetForm : M unit :=
  modify (fun s =>
            with_form s
              {| hazardType := ""; description := ""; location := "";
                 contactNumber := "" |}
              None "" None).

Definition onClose : M unit := modify with_closed.

(** [supabase.storage.from('report-images').upload(fileName, imageFile)]:
    resolves to [{ error }]; the object is stored when there is no error. *)
Definition storage_upload (fileName : string) (file : File)
  : M (option string) :=
  fun b s =>
    match uploadError b with
    | Some e =>
        (Normal (Some e),
         with_backend s (report_images s) (hazard_reports s)
           (Upload fileName file))
    | None =>
        (Normal None,
         with_backend s (report_images s ++ [(fileName, file)])
           (hazard_reports s) (Upload fileName file))
    end.

(** [supabase.rpc('calculate_credibility_score', args)]: resolves to
    [{ data }], the score computed by the SQL function, or null on error. *)
Definition rpc_calculate_credibility_score (args : score_args)
  : M (option decimal) :=
  fun b s =>
    (Normal
       match rpcError b with
       | Some _ => None
       | None =>
           Some (Scorer.calculate_credibility_score
                   (Some (has_image args)) (Some (has_location args))
                   (Some (description_length args))
                   (Some (nearby_reports_count args)))
       end,
     with_backend s (report_images s) (hazard_reports s) (Rpc args)).

(** [supabase.from('hazard_reports').insert(row)]: resolves to [{ error }];
    the row is stored when there is no error. *)
Definition insert_report (r : report_insert) : M (option string) :=
  fun b s =>
    match insertError b with
    | Some e =>
        (Normal (Some e),
         with_backend s (report_images s) (hazard_reports s) (Insert r))
    | None =>
        (Normal None,
         with_backend s (report_images s) (hazard_reports s ++ [r]) (Insert r))
    end.

(** [`${Date.now()}-${imageFile.name}`]. *)
Definition file_name (t : Z) (file : File) : string :=
  DecimalString.NilZero.string_of_int (Z.to_int t) ++ "-" ++ name file.

Definition destructive : option string := Some "destructive".

Definition authentication_required : Toast :=
  {| title := "Authentication Required";
     toast_description := "Please log in to submit a report.";
     variant := destructive |}.

Definition missing_information : Toast :=
  {| title := "Missing Information";
     toast_description := "Please fill in all required fields.";
     variant := destructive |}.

Definition submitted_successfully : Toast :=
  {| title := "Report Submitted Successfully!";
     toast_description :=
       "Thank you for your report. Authorities have been notified.";
     variant := None |}.

(** The toast of the catch block:
    [error instanceof Error ? error.message : "An error occurred ..."]. *)
Definition submission_failed (error : exception) : Toast :=
  {| title := "Submission Failed";
     toast_description :=
       match error with
       | Error message => message
       | NotAnError => "An error occurred while submitting your report."
       end;
     variant := destructive |}.

(** [!formData.hazardType || !formData.description || !formData.location]. *)
Definition missing_required (fd : FormData) : bool :=
  Js.falsy_string (hazardType fd)
  || Js.falsy_string (description fd)
  || Js.falsy_string (location fd).

(** [x || null] on a string and on a coordinate. *)
Definition string_or_null (x : string) : option string :=
  if Js.falsy_string x then None else Some x.

Definition coordinate_or_null (x : option Q) : option Q :=
  if Js.truthy_number x then x else None.

(** The image step of the try block: the uploaded image's public URL, or null
    when no image is attached. *)
Definition upload_image (img : option File) : M (option string) :=
  match img with
  | Some file =>
      b <- ask ;;
      let fileName := file_name (now b) file in
      uploadError <- storage_upload fileName file ;;
      match uploadError with
      | Some message => throw (Error ("Image upload failed: " ++ message))
      | None => ret (Some (publicUrl b fileName))
      end
  | None => ret None
  end.

(** [handleSubmit]. The handler reads the values of the render it was created
    in ([s0]); its early returns are the first two branches. *)
Definition handleSubmit : M unit :=
  s0 <- get ;;
  match user s0 with
  | None => toast authentication_required
  | Some u =>
      let fd := formData s0 in
      let loc := currentLocation s0 in
      if missing_required fd then toast missing_information
      else
        setIsSubmitting true ;;;
        try_catch_finally
          (imageUrl <- upload_image (imageFile s0) ;;
           credibilityScore <-
             rpc_calculate_credibility_score
               {| has_image := match imageFile s0 with Some _ => true | None => false end;
                  has_location :=
                    Js.truthy_number (option_map latitude loc)
                    && Js.truthy_number (option_map longitude loc);
                  description_length := Z.of_nat (String.length (description fd));
                  nearby_reports_count := 0 |} ;;
           insertError <-
             insert_report
               {| ins_user_id := Roles.id u;
                  ins_hazard_type := hazardType fd;
                  ins_description := description fd;
                  ins_location := location fd;
                  ins_contact_number := string_or_null (contactNumber fd);
                  ins_latitude := coordinate_or_null (option_map latitude loc);
                  ins_longitude := coordinate_or_null (option_map longitude loc);
                  ins_image_url := imageUrl;
                  ins_credibility_score := Js.or_decimal credibilityScore 50 |} ;;
           match insertError with
           | Some message => throw (Error ("Failed to save report: " ++ message))
           | None => toast submitted_successfully ;;; resetForm ;;; onClose
           end)
          (fun error =>
             console_error "Error submitting report:" ;;;
             toast (submission_failed error))
          (setIsSubmitting false)
  end.

(** One submission: the state after the handler has run. *)
Definition submit (b : backend) (s : state) : state := snd (handleSubmit b s).

(** The requests and toasts a submission adds. *)
Definition is_upload (r : request) : bool :=
  match r with Upload _ _ => true | _ => false end.

Definition is_rpc (r : request) : bool :=
  match r with Rpc _ => true | _ => false end.

Definition is_insert (r : request) : bool :=
  match r with Insert _ => true | _ => false end.

(** *** Sample submissions *)

Definition empty_form : FormData :=
  {| hazardType := ""; description := ""; location := ""; contactNumber := "" |}.

Definition high_waves_form : FormData :=
  {| hazardType := "High Waves";
     description := "Waves are breaking over the sea wall near the jetty.";
     location := "Marine Drive, Mumbai";
     contactNumber := "" |}.

Definition photo : File := {| name := "wall.jpg" |}.

(** A fresh form component holding [fd] and [img], opened by [who]. *)
Definition opened (who : option Roles.User) (fd : FormData)
    (img : option File) : state :=
  {| user := who; formData := fd; imageFile := img; imagePreview := "";
     currentLocation := None; isSubmitting := false; closed := false;
     report_images := []; hazard_reports := []; requests := []; toasts := [];
     console := [] |}.

(** A backend that accepts everything, and one whose storage refuses. *)
Definition accepting : backend :=
  {| now := 1757760000123; uploadError := None; rpcError := None;
     insertError := None;
     publicUrl := fun fileName => "https://cdn.example/report-images/" ++ fileName |}.

Definition storage_down : backend :=
  {| now := 1757760000123; uploadError := Some "Bucket not found";
     rpcError := None; insertError := None;
     publicUrl := fun fileName => "https://cdn.example/report-images/" ++ fileName |}.

Definition scoring_down : backend :=
  {| now := 1757760000123; uploadError := None;
     rpcError := Some "function unavailable"; insertError := None;
     publicUrl := fun fileName => "https://cdn.example/report-images/" ++ fileName |}.

Definition insert_refused : backend :=
  {| now := 1757760000123; uploadError := None; rpcError := None;
     insertError := Some "new row violates row-level security policy";
     publicUrl := fun fileName => "https://cdn.example/report-images/" ++ fileName |}.

(** The requests issued by one submission. *)
Definition new_requests (b : backend) (s : state) : list request :=
  skipn (List.length (requests s)) (requests (submit b s)).

(** The toasts shown by one submission. *)
Definition new_toasts (b : backend) (s : state) : list Toast :=
  skipn (List.length (toasts s)) (toasts (submit b s)).

(** The submission uploaded an image and the upload came back with the error
    [message]. *)
Definition upload_failed (b : backend) (s : state) (message : string) : Prop :=
  existsb is_upload (new_requests b s) = true /\ uploadError b = Some message.

(** No further step: nothing is uploaded, no score is requested, no report
    is inserted, and both stores are as before. *)
Definition no_further_step (b : backend) (s : state) : Prop :=
  new_requests b s = []
  /\ report_images (submit b s) = report_images s
  /\ hazard_reports (submit b s) = hazard_reports s.

End Intake.

(* ===================================================================== *)
(** ** Storage-layer policies and the account-creation trigger *)
(* ===================================================================== *)

Module Policies.
Import Roles.

(** The check of the policies "Authorities and admins can create alerts",
    "... can view all alerts" and "... can view all reports":
    [has_role(auth.uid(), 'authority') OR has_role(auth.uid(), 'admin')]. *)
Definition authority_or_admin (t : user_roles) (uid : string) : bool :=
  has_role t uid authority || has_role t uid admin.

(** The two SELECT policies on [user_roles], combined as PostgreSQL combines
    permissive policies (by OR): a viewer sees a row when it is the viewer's
    own or when the viewer has the admin role. *)
Definition can_view_role_row (t : user_roles) (uid : string)
    (x : user_roles_row) : bool :=
  String.eqb uid (user_id x) || has_role t uid admin.

(** [UNIQUE (user_id, role)]: would adding [x] violate the constraint? *)
Definition violates_unique (t : user_roles) (x : user_roles_row) : bool :=
  has_role t (user_id x) (role x).

(** [INSERT INTO public.user_roles (user_id, role) VALUES (...)]: the table
    with the new row, or [None] when the unique constraint rejects it. *)
Definition insert_user_role (t : user_roles) (x : user_roles_row)
  : option user_roles :=
  if violates_unique t x then None else Some (t ++ [x]).

(** The trigger function [handle_new_user_role], run after a row with
    identifier [new_id] is inserted into [auth.users]. *)
Definition handle_new_user_role (t : user_roles) (new_id : string)
  : option user_roles :=
  insert_user_role t {| user_id := new_id; role := citizen |}.

End Policies.

(* ===================================================================== *)
(** ** RoleGuard *)
(* ===================================================================== *)

Module Guard.
Import Roles.

(** What the component returns. *)
Inductive rendered : Type :=
| Skeleton
| Fallback
| Children.

(** The hook's state before its effect has run:
    [useState(null)] and [useState(true)]. *)
Definition initial : hook := {| current_role := None; loading := true |}.

(** [RoleGuard]. *)
Definition RoleGuard (h : hook) (requiredRole : UserRole) : rendered :=
  if loading h then Skeleton
  else if negb (hasRole h requiredRole) then Fallback
  else Children.

End Guard.

(* ===================================================================== *)
(** ** Dashboard: markers, labels, fetching and timestamps *)
(* ===================================================================== *)

Module DashboardView.
Import Decimal Dashboard.
Local Open Scope string_scope.

(** [getUrgencyColor]. *)
Definition getUrgencyColor (urgency : string) : string :=
  if String.eqb urgency "high" then "destructive"
  else if String.eqb urgency "medium" then "warning"
  else if String.eqb urgency "low" then "secondary"
  else "secondary".

(** [getMarkerColor]: the score decides when it is given, the urgency
    otherwise. *)
Definition getMarkerColor (urgency : string) (credibilityScore : option decimal)
  : string :=
  match credibilityScore with
  | Some score => getCredibilityColor score
  | None =>
      if String.eqb urgency "high" then "#dc2626"
      else if String.eqb urgency "medium" then "#ea580c"
      else if String.eqb urgency "low" then "#059669"
      else "#6b7280"
  end.

(** [report.urgency || 'medium']: the urgency shown for a report. *)
Definition urgency_or_medium (u : option string) : string :=
  match u with
  | Some s => if Js.falsy_string s then "medium" else s
  | None => "medium"
  end.

(** The options of a circle marker, with its position. *)
Record marker : Type := {
  position : Q * Q;
  color : string;
  fillColor : string;
  fillOpacity : Q;
  radius : Z;
  weight : Z;
  className : string
}.

(** The marker drawn for a report of the filtered list: none when the report
    has no coordinates. *)
Definition report_marker (report : HazardReport) : option marker :=
  match coordinates report with
  | Some c =>
      let urgency := urgency_or_medium (urgency (row report)) in
      let credibilityScore := Js.or_decimal (credibility_score (row report)) 50 in
      let color := getMarkerColor urgency (Some credibilityScore) in
      let shouldPulse := String.eqb urgency "high" || (credibilityScore >=? 80) in
      Some {| position := c;
              color := color;
              fillColor := color;
              fillOpacity := (8 # 10)%Q;
              radius := if credibilityScore >=? 70 then 15
                        else if credibilityScore >=? 40 then 12 else 10;
              weight := 3;
              className := if shouldPulse then "animate-pulse" else "" |}
  | None => None
  end.

(** The demonstration entries: position and urgency. *)
Definition demoMarkers : list ((Q * Q) * string) :=
  [ ((190176 # 10000, 728562 # 10000)%Q, "high");
    ((84004 # 10000, 769784 # 10000)%Q, "medium");
    ((216244 # 10000, 875281 # 10000)%Q, "low") ].

Definition demo_marker (demo : (Q * Q) * string) : marker :=
  let color := getMarkerColor (snd demo) (Some 60) in
  {| position := fst demo;
     color := color;
     fillColor := color;
     fillOpacity := (7 # 10)%Q;
     radius := if String.eqb (snd demo) "high" then 15
               else if String.eqb (snd demo) "medium" then 12 else 10;
     weight := 3;
     className := if String.eqb (snd demo) "high" then "animate-pulse" else "" |}.

Fixpoint report_markers (filteredReports : list HazardReport) : list marker :=
  match filteredReports with
  | [] => []
  | report :: rest =>
      match report_marker report with
      | Some m => m :: report_markers rest
      | None => report_markers rest
      end
  end.

(** The markers on the map after the marker effect has run: one per filtered
    report with coordinates, then the demonstration markers when the filtered
    list is empty. *)
Definition markers (filteredReports : list HazardReport) : list marker :=
  report_markers filteredReports
  ++ (if (List.length filteredReports =? 0)%nat
      then map demo_marker demoMarkers else []).

(** The list state under a sequence of change events. *)
Definition handle_all (events : list change_event)
    (reports : list HazardReport) : list HazardReport :=
  fold_left (fun l e => handle e l) events reports.

(** The number of INSERT events in a sequence. *)
Definition inserts (events : list change_event) : nat :=
  List.length (List.filter (fun e => match e with INSERT _ => true | UPDATE _ => false end)
                 events).

(** *** Fetching *)

(** What the awaited select of [fetchReports] yields. *)
Inductive fetched : Type :=
| Answered (data : option (list hazard_reports_row))
           (error : option Roles.PostgrestError)
| Failed.

(** The part of the component state that [fetchReports] writes. *)
Record listing : Type := {
  reports : list HazardReport;
  loading : bool
}.

(** [fetchReports]: an error answer returns early; a missing [data] makes
    [data.map] throw, which the catch block logs; the finally block always
    clears [loading]. *)
Definition fetchReports (f : fetched) (d : listing) : listing :=
  match f with
  | Answered data error =>
      match error with
      | Some _ => {| reports := reports d; loading := false |}
      | None =>
          match data with
          | Some rows => {| reports := map mappedReport rows; loading := false |}
          | None => {| reports := reports d; loading := false |}
          end
      end
  | Failed => {| reports := reports d; loading := false |}
  end.

(** *** Relative timestamps *)

(** [formatTimestamp], on times in milliseconds: [now] is the current time,
    [date] the parsed timestamp, [None] when the text is not a date (the
    difference is then NaN and every comparison fails). Quotients of integers
    of this size are exact, so [Math.floor(a / b)] is the floor division. *)
Definition formatTimestamp (now : Z) (date : option Z) : string :=
  match date with
  | None => "Just now"
  | Some t =>
      let diffInMs := now - t in
      let diffInHours := diffInMs / (1000 * 60 * 60) in
      let diffInMinutes := diffInMs / (1000 * 60) in
      if diffInHours >? 24 then
        DecimalString.NilZero.string_of_int (Z.to_int (diffInHours / 24))
        ++ " days ago"
      else if diffInHours >? 0 then
        DecimalString.NilZero.string_of_int (Z.to_int diffInHours) ++ " hours ago"
      else if diffInMinutes >? 0 then
        DecimalString.NilZero.string_of_int (Z.to_int diffInMinutes)
        ++ " minutes ago"
      else "Just now"
  end.

End DashboardView.

(* ===================================================================== *)
(** ** Report intake: outcomes, and the stored row *)
(* ===================================================================== *)

Module IntakeView.
Import Decimal Intake.
Local Open Scope string_scope.

(** The submission passes the two guards of the handler: somebody is signed
    in and no required field is empty. *)
Definition passes_guards (s : state) : bool :=
  match user s with
  | Some _ => negb (missing_required (formData s))
  | None => false
  end.

(** No image is attached, or the attached image is uploaded without error. *)
Definition image_step_succeeds (b : backend) (s : state) : bool :=
  match imageFile s, uploadError b with
  | Some _, Some _ => false
  | _, _ => true
  end.

(** The submission gets as far as storing its report. *)
Definition accepted (b : backend) (s : state) : bool :=
  passes_guards s && image_step_succeeds b s
  && match insertError b with Some _ => false | None => true end.

(** The kind of a request. *)
Inductive kind : Type := Uploading | Scoring | Inserting.

Definition kind_of (r : request) : kind :=
  match r with
  | Upload _ _ => Uploading
  | Rpc _ => Scoring
  | Insert _ => Inserting
  end.

(** The row the database stores for an inserted report: the columns the
    client does not send take their defaults, [gen_random_uuid()] (here
    [new_id]), [now()] (here [ts]), status 'submitted' and urgency 'medium'. *)
Definition stored_row (new_id ts : string) (r : report_insert)
  : Dashboard.hazard_reports_row :=
  {| Dashboard.id := new_id;
     Dashboard.user_id := ins_user_id r;
     Dashboard.hazard_type := ins_hazard_type r;
     Dashboard.description := ins_description r;
     Dashboard.location := ins_location r;
     Dashboard.contact_number := ins_contact_number r;
     Dashboard.image_url := ins_image_url r;
     Dashboard.status := "submitted";
     Dashboard.urgency := Some "medium";
     Dashboard.credibility_score := Some (ins_credibility_score r);
     Dashboard.latitude := ins_latitude r;
     Dashboard.longitude := ins_longitude r;
     Dashboard.created_at := ts;
     Dashboard.updated_at := ts |}.

(** The scoring arguments and the row sent when the signed-in sample user
    submits the high-waves form with the photo to the accepting backend. *)
Definition sample_args : score_args :=
  {| has_image := true; has_location := false; description_length := 52;
     nearby_reports_count := 0 |}.

Definition sample_insert : report_insert :=
  {| ins_user_id := Roles.id Roles.coast_guard;
     ins_hazard_type := "High Waves";
     ins_description := "Waves are breaking over the sea wall near the jetty.";
     ins_location := "Marine Drive, Mumbai";
     ins_contact_number := None;
     ins_latitude := None;
     ins_longitude := None;
     ins_image_url :=
       Some "https://cdn.example/report-images/1757760000123-wall.jpg";
     ins_credibility_score := 50 |}.

End IntakeView.

(* ===================================================================== *)
(** ** Alerts *)
(* ===================================================================== *)

Module Alerts.
Import Query.
Local Open Scope string_scope.

(** A row of [public.alerts]. [created_at] is an instant (the text form the
    client receives is not modelled); [is_active] is a nullable boolean. *)
Record Alert : Type := {
  id : string;
  alert_message : string;
  sent_to : option string;
  sender_id : string;
  report_id : option string;
  created_at : Z;
  is_active : option bool
}.

(** [.eq('is_active', true)]: a NULL flag does not match. *)
Definition active (a : Alert) : bool :=
  match is_active a with
  | Some true => true
  | _ => false
  end.

(** The query of [fetchAlerts]:
    [select('*').eq('is_active', true).order('created_at', { ascending: false })]. *)
Definition select_active (table : list Alert) : list Alert :=
  order_by (fun a => - created_at a) (List.filter active table).

(** What the awaited query yields. *)
Inductive fetched : Type :=
| Answered (data : option (list Alert)) (error : option Roles.PostgrestError)
| Failed.

(** The alerts service: it answers from its table, answers with an error, or
    the request does not complete. *)
Inductive service : Type :=
| Serving (table : list Alert)
| Failing (e : Roles.PostgrestError)
| Rejecting.

Definition select_alerts (s : service) : fetched :=
  match s with
  | Serving table => Answered (Some (select_active table)) None
  | Failing e => Answered None (Some e)
  | Rejecting => Failed
  end.

(** The panel's state. *)
Record panel : Type := {
  user : option Roles.User;
  alerts : list Alert;
  loading : bool;
  sending : bool;
  alertMessage : string;
  selectedReport : string;
  sentTo : string;
  toasts : list Intake.Toast;
  console : list string
}.

(** [fetchAlerts]: [setAlerts(data || [])] unless the answer is an error;
    errors are logged; [loading] is cleared in every case. *)
Definition fetchAlerts (f : fetched) (p : panel) : panel :=
  let logged :=
    {| user := user p; alerts := alerts p; loading := false;
       sending := sending p; alertMessage := alertMessage p;
       selectedReport := selectedReport p; sentTo := sentTo p;
       toasts := toasts p;
       console := console p ++ ["Error fetching alerts:"] |} in
  match f with
  | Answered data error =>
      match error with
      | Some _ => logged
      | None =>
          {| user := user p;
             alerts := match data with Some l => l | None => [] end;
             loading := false;
             sending := sending p; alertMessage := alertMessage p;
             selectedReport := selectedReport p; sentTo := sentTo p;
             toasts := toasts p; console := console p |}
      end
  | Failed => logged
  end.

(** The handler of an INSERT change event:
    [setAlerts(prev => [newAlert, ...prev])]. *)
Definition on_insert (newAlert : Alert) (p : panel) : panel :=
  {| user := user p; alerts := newAlert :: alerts p; loading := loading p;
     sending := sending p; alertMessage := alertMessage p;
     selectedReport := selectedReport p; sentTo := sentTo p;
     toasts := toasts p; console := console p |}.

(** *** [String.prototype.trim] *)

(** White space and line terminators among the code units below 256. *)
Definition is_white_space (c : Ascii.ascii) : bool :=
  let n := Ascii.nat_of_ascii c in
  ((9 <=? n) && (n <=? 13) || (n =? 32) || (n =? 160))%nat.

Fixpoint trim_start (s : string) : string :=
  match s with
  | EmptyString => EmptyString
  | String c s' => if is_white_space c then trim_start s' else s
  end.

Fixpoint trim_end (s : string) : string :=
  match s with
  | EmptyString => EmptyString
  | String c s' =>
      match trim_end s' with
      | EmptyString => if is_white_space c then EmptyString else String c EmptyString
      | t => String c t
      end
  end.

Definition trim (s : string) : string := trim_end (trim_start s).

(** *** Sending *)

(** The object passed to [from('alerts').insert]. *)
Record alert_insert : Type := {
  ins_alert_message : string;
  ins_sent_to : string;
  ins_sender_id : string;
  ins_report_id : option string
}.

(** The backend as [sendAlert] sees it: the alerts it has accepted, and the
    error it answers the next insert with, if any. *)
Record backend : Type := {
  accepted : list alert_insert;
  insertError : option Roles.PostgrestError
}.

Definition alert_sent : Intake.Toast :=
  {| Intake.title := "Alert Sent";
     Intake.toast_description := "Your alert has been sent successfully.";
     Intake.variant := None |}.

Definition alert_failed : Intake.Toast :=
  {| Intake.title := "Error";
     Intake.toast_description := "Failed to send alert. Please try again.";
     Intake.variant := Some "destructive" |}.

(** [!user?.id]. *)
Definition no_user_id (u : option Roles.User) : bool :=
  match u with
  | Some x => Js.falsy_string (Roles.id x)
  | None => true
  end.

(** [sendAlert]: the backend and the panel after the handler has run. The
    guard returns at once; past it a user is present. *)
Definition sendAlert (b : backend) (p : panel) : backend * panel :=
  if Js.falsy_string (trim (alertMessage p)) || no_user_id (user p) then (b, p)
  else
    match insertError b with
    | Some e =>
        (b,
         {| user := user p; alerts := alerts p; loading := loading p;
            sending := false; alertMessage := alertMessage p;
            selectedReport := selectedReport p; sentTo := sentTo p;
            toasts := toasts p ++ [alert_failed];
            console := console p ++ ["Error sending alert:"] |})
    | None =>
        ({| accepted :=
              accepted b
              ++ [ {| ins_alert_message := trim (alertMessage p);
                      ins_sent_to := sentTo p;
                      ins_sender_id :=
                        match user p with
                        | Some u => Roles.id u
                        | None => ""
                        end;
                      ins_report_id :=
                        Intake.string_or_null (selectedReport p) |} ];
            insertError := insertError b |},
         {| user := user p; alerts := alerts p; loading := loading p;
            sending := false; alertMessage := "";
            selectedReport := ""; sentTo := "all";
            toasts := toasts p ++ [alert_sent];
            console := console p |})
    end.

(** The send button: [disabled={!alertMessage.trim() || sending}]. *)
Definition send_disabled (p : panel) : bool :=
  Js.falsy_string (trim (alertMessage p)) || sending p.

(** *** Vocabulary *)

(** The text neither starts nor ends with white space. *)
Fixpoint last_char (s : string) : option Ascii.ascii :=
  match s with
  | EmptyString => None
  | String c EmptyString => Some c
  | String _ s' => last_char s'
  end.

Definition first_char (s : string) : option Ascii.ascii :=
  match s with
  | EmptyString => None
  | String c _ => Some c
  end.

Definition trimmed (s : string) : Prop :=
  (forall c, first_char s = Some c -> is_white_space c = false)
  /\ (forall c, last_char s = Some c -> is_white_space c = false).

(** Every character of the text is white space. *)
Fixpoint blank (s : string) : bool :=
  match s with
  | EmptyString => true
  | String c s' => is_white_space c && blank s'
  end.

(** *** Sample panels *)

(** A panel with a drafted message, opened by [who]. *)
Definition drafting (who : option Roles.User) (message : string) : panel :=
  {| user := who; alerts := []; loading := false; sending := false;
     alertMessage := message; selectedReport := ""; sentTo := "nearby";
     toasts := []; console := [] |}.

Definition accepting_alerts : backend :=
  {| accepted := []; insertError := None |}.

Definition refusing_alerts : backend :=
  {| accepted := [];
     insertError :=
       Some {| Roles.code := "42501";
               Roles.message := "new row violates row-level security policy" |} |}.

End Alerts.

(* ===================================================================== *)
(** ** The index page *)
(* ===================================================================== *)

Module IndexPage.
Import Roles Guard.

(** What the page renders: a spinner while the session loads, a redirect to
    the sign-in route without a user, and otherwise the home page with the
    report form and, inside a guard requiring authority, the dashboard. *)
Inductive view : Type :=
| Spinner
| Navigate (to : string)
| Home (isReportFormOpen : bool) (dashboard_guard : rendered)
       (isDashboardOpen : bool).

(** [Index]: [loading] and [user] come from the session, [h] is the state of
    the role hook inside the guard. *)
Definition Index (loading : bool) (user : option User) (h : hook)
    (isReportFormOpen isDashboardOpen : bool) : view :=
  if loading then Spinner
  else
    match user with
    | None => Navigate "/auth"
    | Some _ => Home isReportFormOpen (RoleGuard h authority) isDashboardOpen
    end.

(** The dashboard is on screen: the guard renders its children and the
    dashboard component is open. *)
Definition dashboard_on_screen (v : view) : bool :=
  match v with
  | Home _ Children true => true
  | _ => false
  end.

(** The report form is on screen. *)
Definition report_form_on_screen (v : view) : bool :=
  match v with
  | Home true _ _ => true
  | _ => false
  end.

End IndexPage.

(* ===================================================================== *)
(** * Theorems *)
(* ===================================================================== *)

(** ** Credibility scorer *)

Module ScorerFacts.
Import Decimal Sql Scorer.

(** The statement-by-statement function is a capped sum. *)
Lemma calculate_credibility_score_sum hi hl len nb :
  calculate_credibility_score hi hl len nb =
  Z.min 100
    (10 + (if is_true hi then 30 else 0) + (if is_true hl then 20 else 0)
        + (if is_true (gt len 50) then 10 else 0)
        + (if is_true (gt nb 0) then 30 else 0)).
Proof.
  unfold calculate_credibility_score.
  destruct (is_true hi), (is_true hl), (is_true (gt len 50)),
    (is_true (gt nb 0)); reflexivity.
Qed.

Lemma to_Q_le (a b : decimal) : a <= b -> (to_Q a <= to_Q b)%Q.
Proof. unfold to_Q, Qle; cbn; lia. Qed.

(** The uncapped sum is at most 1.00, so the final IF never fires. *)
Lemma cap_never_fires hi hl len nb :
  10 + (if is_true hi then 30 else 0) + (if is_true hl then 20 else 0)
     + (if is_true (gt len 50) then 10 else 0)
     + (if is_true (gt nb 0) then 30 else 0) <= 100.
Proof.
  destruct (is_true hi), (is_true hl), (is_true (gt len 50)),
    (is_true (gt nb 0)); lia.
Qed.

(** A NULL argument contributes nothing. *)
Lemma null_arguments_score_base :
  calculate_credibility_score None None None None = 10.
Proof. reflexivity. Qed.

(** C2. For all inputs the score equals
    min(0.1 + 0.3[hasImage] + 0.2[hasLocation] + 0.1[descriptionLength > 50]
        + 0.3[nearbyReportsCount > 0], 1.0);
    in particular score(false,false,0,0) = 0.10, score(true,false,10,0) = 0.40
    and score(true,true,60,1) = 1.00. *)
Theorem score_matches_formula :
  (forall hi hl len nb,
      (to_Q (score hi hl len nb) == score_formula hi hl len nb)%Q)
  /\ (to_Q (score false false 0 0) == 10 # 100)%Q
  /\ (to_Q (score true false 10 0) == 40 # 100)%Q
  /\ (to_Q (score true true 60 1) == 100 # 100)%Q.
Proof.
  split; [| repeat split; reflexivity].
  intros hi hl len nb.
  unfold score, calculate_credibility_score, score_formula, to_Q;
    cbn [is_true gt].
  destruct hi, hl, (len >? 50), (nb >? 0); vm_compute; reflexivity.
Qed.

Lemma gtb_mono (a b k : Z) : a <= b -> (a >? k) = true -> (b >? k) = true.
Proof. rewrite !Z.gtb_ltb, !Z.ltb_lt; lia. Qed.

(** C3. For all inputs the score lies in [0.1, 1.0], and it does not decrease
    when hasImage or hasLocation goes from false to true, when
    descriptionLength increases, or when nearbyReportsCount increases (scores
    are compared as numbers of hundredths). *)
Theorem score_bounded_and_monotone :
  (forall hi hl len nb,
      (1 # 10 <= to_Q (calculate_credibility_score hi hl len nb))%Q
      /\ (to_Q (calculate_credibility_score hi hl len nb) <= 1)%Q)
  /\ (forall hl len nb, score false hl len nb <= score true hl len nb)
  /\ (forall hi len nb, score hi false len nb <= score hi true len nb)
  /\ (forall hi hl len len' nb,
         len <= len' -> score hi hl len nb <= score hi hl len' nb)
  /\ (forall hi hl len nb nb',
         nb <= nb' -> score hi hl len nb <= score hi hl len nb').
Proof.
  split; [| split; [| split; [| split]]].
  - intros hi hl len nb. rewrite calculate_credibility_score_sum.
    unfold to_Q, Qle; cbn [Qnum Qden].
    destruct (is_true hi), (is_true hl), (is_true (gt len 50)),
      (is_true (gt nb 0)); cbn; lia.
  - intros hl len nb. unfold score. rewrite !calculate_credibility_score_sum.
    cbn [is_true gt]. apply Z.min_le_compat_l.
    destruct hl, (len >? 50), (nb >? 0); lia.
  - intros hi len nb. unfold score. rewrite !calculate_credibility_score_sum.
    cbn [is_true gt]. apply Z.min_le_compat_l.
    destruct hi, (len >? 50), (nb >? 0); lia.
  - intros hi hl len len' nb Hle. unfold score.
    rewrite !calculate_credibility_score_sum. cbn [is_true gt].
    apply Z.min_le_compat_l.
    destruct (len >? 50) eqn:E.
    + rewrite (gtb_mono len len' 50 Hle E). lia.
    + destruct (len' >? 50), hi, hl, (nb >? 0); lia.
  - intros hi hl len nb nb' Hle. unfold score.
    rewrite !calculate_credibility_score_sum. cbn [is_true gt].
    apply Z.min_le_compat_l.
    destruct (nb >? 0) eqn:E.
    + rewrite (gtb_mono nb nb' 0 Hle E). lia.
    + destruct (nb' >? 0), hi, hl, (len >? 50); lia.
Qed.

(** The last two parts of C3 at a concrete pair of inputs: a description
    growing from 10 to 60 characters, a neighbourhood from 0 to 2 reports. *)
Lemma score_bounded_and_monotone_witness :
  (10 <= 60 /\ score true false 10 0 <= score true false 60 0)
  /\ (0 <= 2 /\ score true false 10 0 <= score true false 10 2).
Proof.
  destruct score_bounded_and_monotone as (_ & _ & _ & Hlen & Hnb).
  split; (split; [lia |]).
  - apply (Hlen true false 10 60 0); lia.
  - apply (Hnb true false 10 0 2); lia.
Defined.

End ScorerFacts.

(** ** Rows in SQL order *)

Module QueryFacts.
Import Query.

Section OrderBy.
Context {A : Type} (key : A -> Z).

Lemma insert_by_head (x : A) (l : list A) :
  hd_error (insert_by key x l) =
  Some match l with
       | [] => x
       | y :: _ => if key x <=? key y then x else y
       end.
Proof. destruct l as [|y l]; cbn; [|destruct (key x <=? key y)]; reflexivity. Qed.

Lemma order_by_nil (l : list A) : order_by key l = [] -> l = [].
Proof.
  destruct l as [|a l]; [reflexivity|]. intros H.
  change (insert_by key a (order_by key l) = []) in H.
  pose proof (insert_by_head a (order_by key l)) as Hd.
  rewrite H in Hd. discriminate.
Qed.

(** The first row in [ORDER BY key ASC] order is a row of the input whose key
    is the smallest. *)
Lemma order_by_head_least (l : list A) (x : A) :
  hd_error (order_by key l) = Some x ->
  In x l /\ forall y, In y l -> key x <= key y.
Proof.
  revert x. induction l as [|a l IH]; intros x.
  - discriminate.
  - change (order_by key (a :: l)) with (insert_by key a (order_by key l)).
    rewrite insert_by_head. intros [= Hx].
    destruct (order_by key l) as [|y s] eqn:E.
    + apply order_by_nil in E. subst. split; [now left|].
      intros y [->|[]]. lia.
    + destruct (IH y eq_refl) as [Hin Hmin].
      destruct (key a <=? key y) eqn:C; subst x.
      * apply Z.leb_le in C. split; [now left|].
        intros z [->|Hz]; [lia|]. specialize (Hmin z Hz). lia.
      * apply Z.leb_gt in C. split; [now right|].
        intros z [->|Hz]; [lia|]. now apply Hmin.
Qed.

Lemma order_by_head_some (l : list A) :
  l <> [] -> exists x, hd_error (order_by key l) = Some x.
Proof.
  destruct l as [|a l]; [congruence|]. intros _.
  change (order_by key (a :: l)) with (insert_by key a (order_by key l)).
  rewrite insert_by_head. eauto.
Qed.

End OrderBy.

Lemma limit_1_head {A B : Type} (f : A -> B) (l : list A) :
  map f (limit 1 l) =
  match hd_error l with
  | Some x => [f x]
  | None => []
  end.
Proof. destruct l; reflexivity. Qed.

End QueryFacts.

(** ** Roles *)

Module RolesFacts.
Import Query QueryFacts Roles.

Lemma rows_of_In (t : user_roles) (uid : string) (x : user_roles_row) :
  In x (rows_of t uid) <-> In x t /\ user_id x = uid.
Proof. unfold rows_of. rewrite filter_In, String.eqb_eq. reflexivity. Qed.

Lemma rows_of_nil (t : user_roles) (uid : string) :
  rows_of t uid = [] <-> no_role_row t uid.
Proof.
  split.
  - intros E x Hx Hu.
    assert (H : In x (rows_of t uid)) by (apply rows_of_In; auto).
    rewrite E in H. exact H.
  - intros H. destruct (rows_of t uid) as [|x l] eqn:E; [reflexivity|].
    assert (Hx : In x (rows_of t uid)) by (rewrite E; now left).
    apply rows_of_In in Hx. destruct Hx as [Hx Hu]. now destruct (H x Hx).
Qed.

Lemma row_eta (x : user_roles_row) :
  {| user_id := user_id x; role := role x |} = x.
Proof. now destruct x. Qed.

Lemma truthy_id (u : User) : id u <> ""%string -> Js.falsy_string (id u) = false.
Proof. destruct (id u); [congruence | reflexivity]. Qed.

Lemma case_role_rank (r : UserRole) : case_role r = 4 - roleHierarchy r.
Proof. now destruct r. Qed.

Lemma enum_position_rank (r : UserRole) : enum_position r = roleHierarchy r - 1.
Proof. now destruct r. Qed.

(** [get_user_role] in terms of the first row in its sort order. *)
Lemma get_user_role_head (t : user_roles) (uid : string) :
  get_user_role t uid =
  option_map role
    (hd_error (order_by (fun r => case_role (role r)) (rows_of t uid))).
Proof.
  unfold get_user_role. rewrite limit_1_head.
  destruct (hd_error (order_by _ _)); reflexivity.
Qed.

(** The SQL function returns the highest-ranked role of the user. *)
Lemma get_user_role_highest (t : user_roles) (uid : string) (r : UserRole) :
  get_user_role t uid = Some r -> highest_role t uid r.
Proof.
  rewrite get_user_role_head.
  destruct (hd_error _) as [x|] eqn:E; [|discriminate].
  intros [= <-]. apply order_by_head_least in E. destruct E as [Hin Hmin].
  apply rows_of_In in Hin. destruct Hin as [Hin Hu]. split.
  - rewrite <- Hu, row_eta. exact Hin.
  - intros y Hy Huy.
    assert (Hy' : In y (rows_of t uid)) by (apply rows_of_In; auto).
    specialize (Hmin y Hy'). cbn in Hmin. rewrite !case_role_rank in Hmin. lia.
Qed.

(** It returns a role exactly when the user has a row. *)
Lemma get_user_role_none (t : user_roles) (uid : string) :
  get_user_role t uid = None <-> no_role_row t uid.
Proof.
  rewrite get_user_role_head, <- rows_of_nil. split.
  - intros H. destruct (rows_of t uid) as [|x l] eqn:E; [reflexivity|].
    destruct (order_by_head_some (fun r => case_role (role r)) (x :: l))
      as [y Hy]; [discriminate|].
    rewrite Hy in H. discriminate.
  - intros ->. reflexivity.
Qed.

(** What the hook's query resolves to while the service answers from the
    table: the first row in enum order, or PGRST116. *)
Lemma select_role_serving (t : user_roles) (uid : string) :
  select_role (Serving t) uid =
  Resolved
    (single
       match hd_error (order_by (fun r => enum_position (role r)) (rows_of t uid)) with
       | Some x => [role x]
       | None => []
       end).
Proof. unfold select_role. now rewrite limit_1_head. Qed.

(** The hook resolves a user who has rows to the LOWEST-ranked of the user's
    roles: ascending enum order puts citizen first. *)
Lemma fetchUserRole_lowest (t : user_roles) (u : User) :
  id u <> ""%string -> ~ no_role_row t (id u) ->
  exists r,
    fetchUserRole (Serving t) (Some u) =
      {| current_role := Some r; loading := false |}
    /\ lowest_role t (id u) r.
Proof.
  intros Hid Hrow. unfold fetchUserRole.
  rewrite (truthy_id u Hid), select_role_serving.
  destruct (hd_error _) as [x|] eqn:E.
  - exists (role x). split; [reflexivity|].
    apply order_by_head_least in E. destruct E as [Hin Hmin].
    apply rows_of_In in Hin. destruct Hin as [Hin Hu]. split.
    + rewrite <- Hu, row_eta. exact Hin.
    + intros y Hy Huy.
      assert (Hy' : In y (rows_of t (id u))) by (apply rows_of_In; auto).
      specialize (Hmin y Hy'). cbn in Hmin.
      rewrite !enum_position_rank in Hmin. lia.
  - exfalso. apply Hrow, rows_of_nil.
    destruct (rows_of t (id u)) as [|x l] eqn:R; [reflexivity|].
    destruct (order_by_head_some (fun r => enum_position (role r)) (x :: l))
      as [y Hy]; [discriminate|].
    rewrite Hy in E. discriminate.
Qed.

(** A single-role user is resolved to that role by both paths. *)
Lemma fetchUserRole_single_row (uid : string) (r : UserRole) :
  uid <> ""%string ->
  current_role
    (fetchUserRole (Serving [ {| user_id := uid; role := r |} ])
       (Some {| id := uid |})) = Some r.
Proof.
  intros Hid. unfold fetchUserRole.
  rewrite (truthy_id {| id := uid |} Hid).
  cbn. rewrite String.eqb_refl. reflexivity.
Qed.

(** C1. The role resolver returns the user's highest-ranked role. The hook
    does not: for a user holding the rows citizen and admin it resolves
    citizen, where the SQL function [get_user_role] on the same table returns
    admin. *)
Theorem fetchUserRole_citizen_and_admin :
  fetchUserRole (Serving citizen_and_admin) (Some coast_guard)
    = {| current_role := Some citizen; loading := false |}
  /\ get_user_role citizen_and_admin (id coast_guard) = Some admin
  /\ highest_role citizen_and_admin (id coast_guard) admin
  /\ ~ highest_role citizen_and_admin (id coast_guard) citizen.
Proof.
  split; [reflexivity|]. split; [reflexivity|]. split.
  - apply get_user_role_highest. reflexivity.
  - intros [_ H].
    specialize (H {| user_id := id coast_guard; role := admin |}).
    cbn in H. assert (3 <= 1) by (apply H; auto). lia.
Qed.

Lemma hasRole_resolved (h : hook) (r required : UserRole) :
  current_role h = Some r ->
  hasRole h required = (roleHierarchy r >=? roleHierarchy required).
Proof. unfold hasRole. now intros ->. Qed.

(** The hook's shortcuts agree with [hasRole]. *)
Lemma isAuthority_hasRole (h : hook) : isAuthority h = hasRole h authority.
Proof. unfold isAuthority, hasRole. now destruct (current_role h) as [[]|]. Qed.

Lemma isAdmin_hasRole (h : hook) : isAdmin h = hasRole h admin.
Proof. unfold isAdmin, hasRole. now destruct (current_role h) as [[]|]. Qed.

(** C4. For every resolved role and every required role, hasRole is true if
    and only if rank(resolved) >= rank(required) under admin=3, authority=2,
    citizen=1; hence hasRole is reflexive and transitive over the rank order,
    a user resolved to admin satisfies citizen, and a user resolved to citizen
    fails authority. *)
Theorem hasRole_rank_order :
  (roleHierarchy admin = 3 /\ roleHierarchy authority = 2
   /\ roleHierarchy citizen = 1)
  /\ (forall h r required,
         current_role h = Some r ->
         (hasRole h required = true
          <-> roleHierarchy r >= roleHierarchy required))
  /\ (forall h r, current_role h = Some r -> hasRole h r = true)
  /\ (forall h h' a b c,
         current_role h = Some a -> current_role h' = Some b ->
         hasRole h b = true -> hasRole h' c = true -> hasRole h c = true)
  /\ (forall h, current_role h = Some admin -> hasRole h citizen = true)
  /\ (forall h, current_role h = Some citizen -> hasRole h authority = false).
Proof.
  split; [repeat split|]. split; [|split; [|split; [|split]]].
  - intros h r required Hr. rewrite (hasRole_resolved h r required Hr).
    rewrite Z.geb_le. lia.
  - intros h r Hr. rewrite (hasRole_resolved h r r Hr). apply Z.geb_le. lia.
  - intros h h' a b c Ha Hb.
    rewrite (hasRole_resolved h a b Ha), (hasRole_resolved h' b c Hb),
      (hasRole_resolved h a c Ha), !Z.geb_le. lia.
  - intros h Hr. now rewrite (hasRole_resolved h admin citizen Hr).
  - intros h Hr. now rewrite (hasRole_resolved h citizen authority Hr).
Qed.

(** C4 at the hook of the user resolved to admin by a single admin row, and
    at a hook resolved to authority. *)
Lemma hasRole_rank_order_witness :
  let h := fetchUserRole (Serving [ {| user_id := "u-7"; role := admin |} ])
             (Some {| id := "u-7" |}) in
  let h' := {| current_role := Some authority; loading := false |} in
  current_role h = Some admin
  /\ (hasRole h authority = true
      <-> roleHierarchy admin >= roleHierarchy authority)
  /\ hasRole h admin = true
  /\ hasRole h citizen = true.
Proof.
  intros h h'.
  destruct hasRole_rank_order as (_ & Hiff & Hrefl & Htrans & Hadm & _).
  assert (Hh : current_role h = Some admin) by reflexivity.
  assert (Hh' : current_role h' = Some authority) by reflexivity.
  split; [exact Hh|]. split; [exact (Hiff h admin authority Hh)|].
  split; [exact (Hrefl h admin Hh)|].
  apply (Htrans h h' admin authority citizen Hh Hh'); reflexivity.
Defined.

(** No row and every kind of lookup failure end in the default role. *)
Lemma fetchUserRole_default (s : service) (u : User) :
  id u <> ""%string -> no_row_or_lookup_failure s (id u) ->
  fetchUserRole s (Some u) = {| current_role := Some citizen; loading := false |}.
Proof.
  intros Hid H. unfold fetchUserRole. rewrite (truthy_id u Hid).
  destruct s as [t|e|].
  - cbn in H. apply rows_of_nil in H.
    rewrite select_role_serving, H. reflexivity.
  - cbn. now destruct (negb (String.eqb (code e) "PGRST116")).
  - reflexivity.
Qed.

(** C9. For every user identifier for which no role row exists or the role
    lookup fails, the role resolver returns citizen: the failure does not
    propagate and no higher-privileged role results. *)
Theorem fetchUserRole_defaults_to_citizen (s : service) (u : User) :
  id u <> ""%string -> no_row_or_lookup_failure s (id u) ->
  current_role (fetchUserRole s (Some u)) = Some citizen
  /\ hasRole (fetchUserRole s (Some u)) authority = false
  /\ hasRole (fetchUserRole s (Some u)) admin = false.
Proof.
  intros Hid H. rewrite (fetchUserRole_default s u Hid H). repeat split.
Qed.

(** C9 for a user absent from a table that holds another user's admin row,
    and for the same user when the lookup is answered with an error. *)
Lemma fetchUserRole_defaults_to_citizen_witness :
  current_role
    (fetchUserRole (Serving [ {| user_id := "u-7"; role := admin |} ])
       (Some {| id := "u-9" |})) = Some citizen
  /\ current_role
       (fetchUserRole (Failing {| code := "57014"; message := "timeout" |})
          (Some {| id := "u-9" |})) = Some citizen.
Proof.
  split.
  - apply (fetchUserRole_defaults_to_citizen
             (Serving [ {| user_id := "u-7"; role := admin |} ])
             {| id := "u-9" |}).
    + cbn. discriminate.
    + cbn. intros x [<-|[]]. cbn. discriminate.
  - apply (fetchUserRole_defaults_to_citizen
             (Failing {| code := "57014"; message := "timeout" |})
             {| id := "u-9" |}).
    + cbn. discriminate.
    + exact I.
Defined.

(** C10. With no authenticated user the resolved role is null, not citizen,
    and hasRole is false for every required role, citizen included; an
    authenticated user whose lookup fails still satisfies citizen. *)
Theorem no_user_no_role :
  (forall s, current_role (fetchUserRole s None) = None)
  /\ (forall s required, hasRole (fetchUserRole s None) required = false)
  /\ (forall s u,
         id u <> ""%string -> no_row_or_lookup_failure s (id u) ->
         hasRole (fetchUserRole s (Some u)) citizen = true).
Proof.
  split; [reflexivity|]. split; [reflexivity|].
  intros s u Hid H. now rewrite (fetchUserRole_default s u Hid H).
Qed.

(** C10's contrast at a lookup that does not complete. *)
Lemma no_user_no_role_witness :
  hasRole (fetchUserRole Rejecting None) citizen = false
  /\ hasRole (fetchUserRole Rejecting (Some {| id := "u-9" |})) citizen = true.
Proof.
  destruct no_user_no_role as (_ & Hnone & Hsome). split.
  - apply Hnone.
  - apply (Hsome Rejecting {| id := "u-9" |}).
    + cbn. discriminate.
    + exact I.
Defined.

End RolesFacts.

(** ** Dashboard *)

Module DashboardFacts.
Import Decimal Dashboard.

Lemma or_decimal_effective (report : HazardReport) :
  credibility_score (row report) <> Some 0 ->
  Js.or_decimal (credibility_score (row report)) 50 = effective_score report.
Proof.
  unfold effective_score, Js.or_decimal.
  destruct (credibility_score (row report)) as [v|]; [|reflexivity].
  intros H. destruct (v =? 0) eqn:E; [|reflexivity].
  apply Z.eqb_eq in E. subst. now destruct H.
Qed.

(** The urgency test of the filter. *)
Lemma urgency_test (filter : string) (u : option string) :
  negb (String.eqb filter "all") && urgency_differs u filter = false
  <-> filter = "all"%string \/ u = Some filter.
Proof.
  unfold urgency_differs.
  destruct (String.eqb_spec filter "all") as [->|Hf]; cbn.
  - split; auto.
  - destruct u as [s|]; cbn.
    + destruct (String.eqb_spec s filter) as [->|Hs]; cbn.
      * split; auto.
      * split; [discriminate|]. intros [?|[= ?]]; congruence.
    + split; [discriminate|]. intros [?|?]; congruence.
Qed.

(** The credibility test of the filter, on the score it works with. *)
Lemma keeps_unfold (filter : string) (c : credibility_selection)
    (report : HazardReport) :
  keeps filter (selection_value c) report =
  if negb (String.eqb filter "all")
     && urgency_differs (urgency (row report)) filter
  then false
  else
    let score := Js.or_decimal (credibility_score (row report)) 50 in
    match c with
    | AllLevels => true
    | High => score >=? 70
    | Medium => (score >=? 40) && (score <? 70)
    | Low => score <? 40
    end.
Proof.
  unfold keeps.
  destruct (negb (String.eqb filter "all")
            && urgency_differs (urgency (row report)) filter); [reflexivity|].
  cbv zeta. set (score := Js.or_decimal _ _).
  destruct c; cbn; [reflexivity| | |].
  - rewrite Z.geb_leb, Z.ltb_antisym. now destruct (70 <=? score).
  - rewrite !Z.geb_leb, !Z.ltb_antisym.
    destruct (40 <=? score), (70 <=? score); reflexivity.
  - rewrite Z.geb_leb, Z.ltb_antisym. now destruct (40 <=? score).
Qed.

Lemma band_test (c : credibility_selection) (score : decimal) :
  match c with
  | AllLevels => true
  | High => score >=? 70
  | Medium => (score >=? 40) && (score <? 70)
  | Low => score <? 40
  end = true
  <-> c = AllLevels \/ in_band c score.
Proof.
  destruct c; cbn.
  - split; auto.
  - rewrite Z.geb_le. split; [auto|]. intros [?|?]; [discriminate|lia].
  - rewrite andb_true_iff, Z.geb_le, Z.ltb_lt.
    split; [intros []; right; lia|]. intros [?|?]; [discriminate|lia].
  - rewrite Z.ltb_lt. split; [auto|]. intros [?|?]; [discriminate|lia].
Qed.

(** The marker colours follow the same three bands as the filter. *)
Lemma getCredibilityColor_band (score : decimal) :
  (in_band High score -> getCredibilityColor score = "#059669"%string)
  /\ (in_band Medium score -> getCredibilityColor score = "#ea580c"%string)
  /\ (in_band Low score -> getCredibilityColor score = "#dc2626"%string).
Proof.
  unfold getCredibilityColor. cbn [in_band].
  destruct (Z.geb_spec score 70), (Z.geb_spec score 40);
    repeat split; intros; (reflexivity || lia).
Qed.

(** What the filter does with a score of 0.00: the score is replaced by 0.50,
    so the report is shown under "medium" and hidden under "low". *)
Lemma keeps_zero_score :
  keeps "all" "medium" (sample "r-0" (Some "low"%string) (Some 0)) = true
  /\ keeps "all" "low" (sample "r-0" (Some "low"%string) (Some 0)) = false.
Proof. split; reflexivity. Qed.

(** C5, as the specification words it, fails on a report that carries no
    score: the filter shows it under "medium" although the report has no
    score in the medium band. It also fails on a report whose score is 0.00:
    that score is below 0.40, and the filter hides the report under "low". *)
Lemma keeps_counterexample :
  ~ (keeps "all" (selection_value Medium) (sample "r-1" (Some "high"%string) None)
       = true
     <-> passes "all" Medium (sample "r-1" (Some "high"%string) None))
  /\ ~ (keeps "all" (selection_value Low) (sample "r-0" (Some "low"%string) (Some 0))
          = true
        <-> passes "all" Low (sample "r-0" (Some "low"%string) (Some 0))).
Proof.
  split.
  - intros [Hkeep _].
    destruct (Hkeep eq_refl) as [_ [Hc|[score [Hs _]]]]; discriminate.
  - intros [_ Hpass].
    assert (H : passes "all" Low (sample "r-0" (Some "low"%string) (Some 0))).
    { split; [now left|]. right. exists 0. split; [reflexivity|cbn; lia]. }
    apply Hpass in H. discriminate.
Qed.

(** C5, amended. For every report whose score is absent or not zero and every
    filter selection, the filter keeps the report iff (the urgency filter is
    "all" or equals the report's urgency) and (the credibility filter is "all"
    or the effective score, the report's score or 0.50 when it has none,
    lies in the selected band: high iff >= 0.70, medium iff in [0.40, 0.70),
    low iff < 0.40). *)
Theorem keeps_iff_passes_effective (filter : string)
    (c : credibility_selection) (report : HazardReport) :
  credibility_score (row report) <> Some 0 ->
  (keeps filter (selection_value c) report = true
   <-> passes_effective filter c report).
Proof.
  intros Hs. rewrite keeps_unfold. cbv zeta.
  rewrite (or_decimal_effective report Hs). unfold passes_effective.
  rewrite <- urgency_test, <- band_test.
  destruct (negb (String.eqb filter "all")
            && urgency_differs (urgency (row report)) filter).
  - split; [discriminate|]. intros [? _]. discriminate.
  - split; auto. intros [_ ?]. assumption.
Qed.

(** The amended C5 at the three boundary scores: 0.69 is medium, 0.70 is
    high, 0.39 is low. *)
Lemma keeps_iff_passes_effective_witness :
  (keeps "all" "medium" (sample "r-2" None (Some 69)) = true
   <-> passes_effective "all" Medium (sample "r-2" None (Some 69)))
  /\ (keeps "all" "high" (sample "r-3" None (Some 70)) = true
      <-> passes_effective "all" High (sample "r-3" None (Some 70)))
  /\ (keeps "high" "low" (sample "r-4" (Some "high"%string) (Some 39)) = true
      <-> passes_effective "high" Low
            (sample "r-4" (Some "high"%string) (Some 39))).
Proof.
  split; [|split].
  - apply (keeps_iff_passes_effective "all" Medium). cbn. discriminate.
  - apply (keeps_iff_passes_effective "all" High). cbn. discriminate.
  - apply (keeps_iff_passes_effective "high" Low). cbn. discriminate.
Defined.

(** The bucketing of the boundary scores, evaluated. *)
Lemma boundary_scores (report : HazardReport) (score : decimal) :
  credibility_score (row report) = Some score ->
  (score = 69 ->
   keeps "all" "medium" report = true /\ keeps "all" "high" report = false
   /\ keeps "all" "low" report = false)
  /\ (score = 70 ->
      keeps "all" "high" report = true /\ keeps "all" "medium" report = false
      /\ keeps "all" "low" report = false)
  /\ (score = 39 ->
      keeps "all" "low" report = true /\ keeps "all" "medium" report = false
      /\ keeps "all" "high" report = false).
Proof.
  intros Hs. unfold keeps. rewrite Hs. cbn.
  repeat split; subst; reflexivity.
Qed.

(** *** Realtime handlers *)

Lemma on_update_length (new : hazard_reports_row) (reports : list HazardReport) :
  List.length (on_update new reports) = List.length reports.
Proof. apply length_map. Qed.

(** Position by position: an entry with the event's id becomes the mapped new
    row, any other entry stays. *)
Lemma on_update_nth (new : hazard_reports_row) (reports : list HazardReport)
    (i : nat) :
  nth_error (on_update new reports) i =
  option_map
    (fun report =>
       if String.eqb (id (row report)) (id new) then mappedReport new
       else report)
    (nth_error reports i).
Proof. apply nth_error_map. Qed.

Lemma on_update_no_match (new : hazard_reports_row)
    (reports : list HazardReport) :
  (forall r, In r reports -> id (row r) <> id new) ->
  on_update new reports = reports.
Proof.
  unfold on_update. induction reports as [|r l IH]; intros H; cbn.
  - reflexivity.
  - destruct (String.eqb_spec (id (row r)) (id new)) as [E|_].
    + now destruct (H r (or_introl eq_refl)).
    + f_equal. apply IH. intros x Hx. apply H. now right.
Qed.

Lemma on_update_app (new : hazard_reports_row) (l1 l2 : list HazardReport) :
  on_update new (l1 ++ l2) = on_update new l1 ++ on_update new l2.
Proof. apply map_app. Qed.

(** C6. For every state of the list: an insert event prepends the new report;
    an update event replaces, position by position, exactly the entries with
    its id and keeps every other entry, so that an entry which alone carries
    the id is replaced in place; an update event whose id matches no entry
    leaves the list unchanged. *)
Theorem realtime_events_update_list :
  (forall new reports,
      handle (INSERT new) reports = mappedReport new :: reports)
  /\ (forall new reports i,
         nth_error (handle (UPDATE new) reports) i =
         option_map
           (fun report =>
              if String.eqb (id (row report)) (id new) then mappedReport new
              else report)
           (nth_error reports i))
  /\ (forall new before old after,
         id (row old) = id new ->
         (forall r, In r (before ++ after) -> id (row r) <> id new) ->
         handle (UPDATE new) (before ++ old :: after)
           = before ++ mappedReport new :: after)
  /\ (forall new reports,
         (forall r, In r reports -> id (row r) <> id new) ->
         handle (UPDATE new) reports = reports).
Proof.
  split; [reflexivity|]. split; [|split].
  - intros new reports i. apply on_update_nth.
  - intros new before old after Hid Hother. cbn [handle].
    rewrite on_update_app.
    rewrite (on_update_no_match new before)
      by (intros r Hr; apply Hother, in_or_app; now left).
    f_equal. cbn. rewrite Hid, String.eqb_refl. f_equal.
    apply (on_update_no_match new after).
    intros r Hr. apply Hother, in_or_app. now right.
  - intros new reports H. apply on_update_no_match, H.
Qed.

(** C6 on a list of three reports: an update of the middle one, and an
    update of a report the list does not hold. *)
Lemma realtime_events_update_list_witness :
  let a := sample "r-1" (Some "low"%string) (Some 30) in
  let b := sample "r-2" (Some "low"%string) (Some 50) in
  let c := sample "r-3" (Some "high"%string) (Some 90) in
  let b' := sample_row "r-2" (Some "high"%string) (Some 80) in
  let d := sample_row "r-4" None None in
  handle (UPDATE b') ([a] ++ b :: [c]) = [a] ++ mappedReport b' :: [c]
  /\ handle (UPDATE d) [a; b; c] = [a; b; c].
Proof.
  intros a b c b' d.
  destruct realtime_events_update_list as (_ & _ & Hhit & Hmiss). split.
  - apply (Hhit b' [a] b [c]); [reflexivity|].
    intros r [<-|[<-|[]]]; cbn; discriminate.
  - apply (Hmiss d [a; b; c]).
    intros r [<-|[<-|[<-|[]]]]; cbn; discriminate.
Defined.

(** Entries that share the event's id are all replaced: the handler does not
    stop at the first match. *)
Lemma on_update_duplicates :
  let a := sample "r-1" (Some "low"%string) (Some 30) in
  let a' := sample_row "r-1" (Some "high"%string) (Some 80) in
  on_update a' [a; a] = [mappedReport a'; mappedReport a'].
Proof. reflexivity. Qed.

End DashboardFacts.

(** ** Report intake *)

Module IntakeFacts.
Import Decimal Intake.
Local Open Scope string_scope.

Lemma skipn_length_app {A : Type} (l x : list A) :
  skipn (List.length l) (l ++ x) = x.
Proof. induction l; cbn; auto. Qed.

Lemma skipn_length_self {A : Type} (l : list A) : skipn (List.length l) l = [].
Proof. induction l; cbn; auto. Qed.

(** Without a signed-in user the handler only shows the authentication
    toast. *)
Lemma submit_no_user (b : backend) (s : state) :
  user s = None ->
  submit b s = with_output s (toasts s ++ [authentication_required]) (console s).
Proof.
  intros Hu. unfold submit, handleSubmit, bind, get. cbn. rewrite Hu. reflexivity.
Qed.

(** With a user and a missing required field it only shows the validation
    toast. *)
Lemma submit_missing_required (b : backend) (s : state) (u : Roles.User) :
  user s = Some u -> missing_required (formData s) = true ->
  submit b s = with_output s (toasts s ++ [missing_information]) (console s).
Proof.
  intros Hu Hm. unfold submit, handleSubmit, bind, get. cbn.
  rewrite Hu, Hm. reflexivity.
Qed.

(** A failed upload: the try block stops at the throw, the catch block logs
    and shows the error, the finally block clears the submitting flag. *)
Lemma submit_upload_error (b : backend) (s : state) (u : Roles.User)
    (file : File) (message : string) :
  user s = Some u -> missing_required (formData s) = false ->
  imageFile s = Some file -> uploadError b = Some message ->
  submit b s =
  with_isSubmitting false
    (with_output
       (with_backend (with_isSubmitting true s) (report_images s)
          (hazard_reports s) (Upload (file_name (now b) file) file))
       (toasts s ++ [submission_failed (Error ("Image upload failed: " ++ message))])
       (console s ++ ["Error submitting report:"])).
Proof.
  intros Hu Hm Hf He.
  unfold submit, handleSubmit, bind, get. cbn. rewrite Hu, Hm.
  unfold try_catch_finally, bind, upload_image, setIsSubmitting, modify.
  rewrite Hf. unfold bind, ask, storage_upload. rewrite He. reflexivity.
Qed.

(** A complete submission against an accepting backend: one upload, one
    scoring call, one inserted report with the score 0.10 + 0.30 + 0.10, a
    success toast, and a reset, closed form. *)
Lemma submit_accepted :
  let s := submit accepting
             (opened (Some Roles.coast_guard) high_waves_form (Some photo)) in
  map is_upload (requests s) = [true; false; false]
  /\ map is_insert (requests s) = [false; false; true]
  /\ map ins_credibility_score (hazard_reports s) = [50]
  /\ map ins_image_url (hazard_reports s)
     = [Some "https://cdn.example/report-images/1757760000123-wall.jpg"]
  /\ toasts s = [submitted_successfully]
  /\ formData s = empty_form /\ closed s = true /\ isSubmitting s = false.
Proof. cbv zeta. repeat split; vm_compute; reflexivity. Qed.

(** When the scoring call fails the report is stored with the score 0.50. *)
Lemma submit_scoring_down :
  let s := submit scoring_down
             (opened (Some Roles.coast_guard) high_waves_form None) in
  map ins_credibility_score (hazard_reports s) = [50]
  /\ toasts s = [submitted_successfully].
Proof. cbv zeta. split; vm_compute; reflexivity. Qed.

(** When the insert is refused the uploaded image stays in the bucket, no
    report is stored, and the form stays open with its content. *)
Lemma submit_insert_refused :
  let s0 := opened (Some Roles.coast_guard) high_waves_form (Some photo) in
  let s := submit insert_refused s0 in
  hazard_reports s = []
  /\ map fst (report_images s) = ["1757760000123-wall.jpg"]
  /\ map toast_description (toasts s)
     = ["Failed to save report: new row violates row-level security policy"]
  /\ formData s = high_waves_form /\ closed s = false.
Proof. cbv zeta. repeat split; vm_compute; reflexivity. Qed.

(** C7, as the specification words it, fails when nobody is signed in: the
    handler returns at its first guard with the authentication toast, not the
    validation toast. *)
Lemma validation_error_counterexample :
  ~ (missing_required (formData (opened None empty_form None)) = true ->
     new_toasts accepting (opened None empty_form None) = [missing_information]
     /\ no_further_step accepting (opened None empty_form None)).
Proof.
  intros H. destruct (H eq_refl) as [Ht _]. vm_compute in Ht. discriminate.
Qed.

(** C7, amended. For every submission in which any of the three required
    fields is empty, intake performs no further step (no upload, no scoring
    call, no inserted report; both stores unchanged) and fails with one
    user-visible error: the validation error when a user is signed in, the
    authentication-required error when nobody is. *)
Theorem missing_field_stops_submission (b : backend) (s : state) :
  missing_required (formData s) = true ->
  new_toasts b s =
    [match user s with
     | Some _ => missing_information
     | None => authentication_required
     end]
  /\ no_further_step b s
  /\ formData (submit b s) = formData s
  /\ closed (submit b s) = closed s.
Proof.
  intros Hm. unfold new_toasts, no_further_step, new_requests.
  destruct (user s) as [u|] eqn:Hu.
  - rewrite (submit_missing_required b s u Hu Hm). cbn.
    rewrite skipn_length_app, skipn_length_self. repeat split.
  - rewrite (submit_no_user b s Hu). cbn.
    rewrite skipn_length_app, skipn_length_self. repeat split.
Qed.

(** The amended C7 at a signed-in user who left the location empty. *)
Lemma missing_field_stops_submission_witness :
  let s := opened (Some Roles.coast_guard)
             {| hazardType := "Erosion"; description := "Dune collapsed";
                location := ""; contactNumber := "" |}
             (Some photo) in
  new_toasts accepting s = [missing_information]
  /\ no_further_step accepting s.
Proof.
  intros s.
  destruct (missing_field_stops_submission accepting s eq_refl)
    as (Ht & Hn & _).
  split; [exact Ht | exact Hn].
Defined.

(** A submission that issues no request has not uploaded anything. *)
Lemma no_request_no_upload (b : backend) (s : state) (message : string) :
  new_requests b s = [] -> ~ upload_failed b s message.
Proof. intros E [H _]. rewrite E in H. discriminate. Qed.

(** C8. For every submission with an attached image, if the image upload
    fails then the submission aborts with an upload-error message and no
    hazard report is inserted: the report store is unchanged. *)
Theorem failed_upload_aborts (b : backend) (s : state) (file : File)
    (message : string) :
  imageFile s = Some file -> upload_failed b s message ->
  new_toasts b s =
    [ {| title := "Submission Failed";
         toast_description := "Image upload failed: " ++ message;
         variant := Some "destructive" |} ]
  /\ hazard_reports (submit b s) = hazard_reports s
  /\ existsb is_insert (new_requests b s) = false
  /\ existsb is_rpc (new_requests b s) = false
  /\ closed (submit b s) = closed s
  /\ isSubmitting (submit b s) = false.
Proof.
  intros Hf Hup.
  destruct (user s) as [u|] eqn:Hu.
  - destruct (missing_required (formData s)) eqn:Hm.
    + exfalso. apply (no_request_no_upload b s message); [|exact Hup].
      unfold new_requests. rewrite (submit_missing_required b s u Hu Hm). cbn.
      apply skipn_length_self.
    + destruct Hup as [_ He].
      unfold new_toasts, new_requests.
      rewrite (submit_upload_error b s u file message Hu Hm Hf He). cbn.
      rewrite !skipn_length_app. repeat split.
  - exfalso. apply (no_request_no_upload b s message); [|exact Hup].
    unfold new_requests. rewrite (submit_no_user b s Hu). cbn.
    apply skipn_length_self.
Qed.

(** C8 at a complete report with a photo, sent while the storage refuses. *)
Lemma failed_upload_aborts_witness :
  let s := opened (Some Roles.coast_guard) high_waves_form (Some photo) in
  upload_failed storage_down s "Bucket not found"
  /\ new_toasts storage_down s =
       [ {| title := "Submission Failed";
            toast_description := "Image upload failed: Bucket not found";
            variant := Some "destructive" |} ]
  /\ hazard_reports (submit storage_down s) = [].
Proof.
  intros s.
  assert (Hup : upload_failed storage_down s "Bucket not found")
    by (split; vm_compute; reflexivity).
  destruct (failed_upload_aborts storage_down s photo "Bucket not found"
              eq_refl Hup) as (Ht & Hr & _).
  split; [exact Hup|]. split; [exact Ht | exact Hr].
Defined.

End IntakeFacts.

(** ** Credibility scorer: further properties *)

Module ScorerMore.
Import Decimal Sql Scorer.

(** A NULL argument is treated like FALSE (for a flag) or like 0 (for a
    length or a count): the function returns the score it would return
    without the corresponding bonus, never NULL and never an error. *)
Theorem null_argument_earns_no_bonus hi hl len nb :
  calculate_credibility_score None hl len nb
    = calculate_credibility_score (Some false) hl len nb
  /\ calculate_credibility_score hi None len nb
     = calculate_credibility_score hi (Some false) len nb
  /\ calculate_credibility_score hi hl None nb
     = calculate_credibility_score hi hl (Some 0) nb
  /\ calculate_credibility_score hi hl len None
     = calculate_credibility_score hi hl len (Some 0).
Proof. repeat split. Qed.

(** The final cap is unreachable: the score is the plain sum of the base and
    the bonuses, and it reaches 1.00 exactly when all four bonuses are
    earned. *)
Theorem score_is_uncapped_sum hi hl len nb :
  calculate_credibility_score hi hl len nb
    = 10 + (if is_true hi then 30 else 0) + (if is_true hl then 20 else 0)
         + (if is_true (gt len 50) then 10 else 0)
         + (if is_true (gt nb 0) then 30 else 0)
  /\ (calculate_credibility_score hi hl len nb = 100
      <-> is_true hi = true /\ is_true hl = true
          /\ is_true (gt len 50) = true /\ is_true (gt nb 0) = true).
Proof.
  unfold calculate_credibility_score.
  destruct (is_true hi), (is_true hl), (is_true (gt len 50)),
    (is_true (gt nb 0)); cbn; (split; [reflexivity|]);
    (split; [intros; try lia; auto | intros (? & ? & ? & ?); try discriminate; reflexivity]).
Qed.

(** The description length matters only through the threshold of 50
    characters, and the nearby count only through being positive: inputs on
    the same side of both thresholds get the same score. *)
Theorem score_depends_on_thresholds hi hl len len' nb nb' :
  (50 < len <-> 50 < len') -> (0 < nb <-> 0 < nb') ->
  score hi hl len nb = score hi hl len' nb'.
Proof.
  intros Hlen Hnb. unfold score, calculate_credibility_score; cbn [is_true gt].
  assert (El : (len >? 50) = (len' >? 50)).
  { rewrite !Z.gtb_ltb. destruct (Z.ltb_spec 50 len), (Z.ltb_spec 50 len');
      try reflexivity; lia. }
  assert (En : (nb >? 0) = (nb' >? 0)).
  { rewrite !Z.gtb_ltb. destruct (Z.ltb_spec 0 nb), (Z.ltb_spec 0 nb');
      try reflexivity; lia. }
  now rewrite El, En.
Qed.

(** An empty description and one of exactly 50 characters score alike, as do
    a count of 0 and a negative count. *)
Lemma score_depends_on_thresholds_witness :
  score true false 0 0 = score true false 50 (-3).
Proof. apply (score_depends_on_thresholds true false 0 50 0 (-3)); lia. Defined.

End ScorerMore.

(** ** Roles: the SQL resolver, the policies, the trigger and the guard *)

Module RolesMore.
Import Query QueryFacts Roles RolesFacts Policies Guard.

Lemma UserRole_eqb_eq (a b : UserRole) : UserRole_eqb a b = true <-> a = b.
Proof. destruct a, b; cbn; split; (reflexivity || discriminate). Qed.

Lemma roleHierarchy_inj (a b : UserRole) :
  roleHierarchy a = roleHierarchy b -> a = b.
Proof. destruct a, b; cbn; intros; (reflexivity || lia). Qed.

Lemma has_role_In (t : user_roles) (uid : string) (r : UserRole) :
  has_role t uid r = true <-> In {| user_id := uid; role := r |} t.
Proof.
  unfold has_role. rewrite existsb_exists. split.
  - intros [x [Hx H]]. apply andb_true_iff in H. destruct H as [Hu Hr].
    apply String.eqb_eq in Hu. apply UserRole_eqb_eq in Hr.
    rewrite <- Hu, <- Hr, row_eta. exact Hx.
  - intros H. exists {| user_id := uid; role := r |}. split; [exact H|].
    cbn. rewrite String.eqb_refl. now destruct r.
Qed.

Lemma has_role_false (t : user_roles) (uid : string) (r : UserRole) :
  has_role t uid r = false <-> ~ In {| user_id := uid; role := r |} t.
Proof.
  rewrite <- has_role_In. destruct (has_role t uid r); split;
    intros; try discriminate; try reflexivity; congruence.
Qed.

Lemma highest_role_unique (t : user_roles) (uid : string) (a b : UserRole) :
  highest_role t uid a -> highest_role t uid b -> a = b.
Proof.
  intros [Ha Ha'] [Hb Hb']. apply roleHierarchy_inj.
  specialize (Ha' _ Hb eq_refl). specialize (Hb' _ Ha eq_refl).
  cbn in Ha', Hb'. lia.
Qed.

Lemma get_user_role_some (t : user_roles) (uid : string) :
  ~ no_role_row t uid -> exists r, get_user_role t uid = Some r.
Proof.
  intros H. destruct (get_user_role t uid) as [r|] eqn:E; [eauto|].
  now apply get_user_role_none in E.
Qed.

(** [get_user_role] returns a role exactly when the user has a row, and the
    role it returns is the one of highest rank among the user's rows. *)
Theorem get_user_role_iff_highest (t : user_roles) (uid : string) :
  (forall r, get_user_role t uid = Some r <-> highest_role t uid r)
  /\ (get_user_role t uid = None <-> no_role_row t uid).
Proof.
  split; [|apply get_user_role_none].
  intros r. split; [apply get_user_role_highest|].
  intros Hr. destruct (get_user_role_some t uid) as [r' E].
  - intros Hno. destruct Hr as [Hin _]. now apply (Hno _ Hin).
  - rewrite E. f_equal.
    apply (highest_role_unique t uid); [now apply get_user_role_highest | exact Hr].
Qed.

(** The storage-layer check "authority or admin", which tests membership of
    single rows, agrees with the rank order on the user's highest role: it
    passes exactly when [get_user_role] returns a role of rank at least
    authority's. *)
Theorem authority_or_admin_iff_rank (t : user_roles) (uid : string) :
  authority_or_admin t uid = true
  <-> exists r, get_user_role t uid = Some r
                /\ roleHierarchy authority <= roleHierarchy r.
Proof.
  unfold authority_or_admin. rewrite orb_true_iff, !has_role_In. split.
  - intros H.
    assert (Hrow : ~ no_role_row t uid).
    { intros Hno. destruct H as [H|H]; now apply (Hno _ H). }
    destruct (get_user_role_some t uid Hrow) as [r E]. exists r.
    split; [exact E|]. apply get_user_role_highest in E. destruct E as [_ Hmax].
    destruct H as [H|H]; specialize (Hmax _ H eq_refl); cbn in *; lia.
  - intros [r [E Hrank]]. apply get_user_role_highest in E.
    destruct E as [Hin _]. destruct r; cbn in Hrank; [lia | now left | now right].
Qed.

Lemma rows_of_app (t t' : user_roles) (uid : string) :
  rows_of (t ++ t') uid = rows_of t uid ++ rows_of t' uid.
Proof. apply filter_app. Qed.

Lemma get_user_role_rows (t t' : user_roles) (uid : string) :
  rows_of t uid = rows_of t' uid -> get_user_role t uid = get_user_role t' uid.
Proof. unfold get_user_role. now intros ->. Qed.

(** Account creation: for an identifier that has no row yet the trigger
    succeeds and adds exactly the citizen row; afterwards the SQL resolver and
    the hook both resolve the new user to citizen, the new user does not pass
    the "authority or admin" check, and every other user resolves as
    before. *)
Theorem new_user_resolves_to_citizen (t : user_roles) (new_id : string) :
  new_id <> ""%string -> no_role_row t new_id ->
  handle_new_user_role t new_id
    = Some (t ++ [ {| user_id := new_id; role := citizen |} ])
  /\ forall t', handle_new_user_role t new_id = Some t' ->
       get_user_role t' new_id = Some citizen
       /\ current_role (fetchUserRole (Serving t') (Some {| id := new_id |}))
          = Some citizen
       /\ authority_or_admin t' new_id = false
       /\ forall uid, uid <> new_id ->
            get_user_role t' uid = get_user_role t uid.
Proof.
  intros Hid Hno.
  assert (Hins : handle_new_user_role t new_id
                 = Some (t ++ [ {| user_id := new_id; role := citizen |} ])).
  { unfold handle_new_user_role, insert_user_role, violates_unique. cbn [user_id role].
    replace (has_role t new_id citizen) with false; [reflexivity|].
    symmetry. apply has_role_false. intros Hin. now apply (Hno _ Hin). }
  split; [exact Hins|]. intros t' Ht'. rewrite Hins in Ht'. injection Ht' as <-.
  assert (Hrows : rows_of (t ++ [ {| user_id := new_id; role := citizen |} ]) new_id
                  = [ {| user_id := new_id; role := citizen |} ]).
  { rewrite rows_of_app. apply rows_of_nil in Hno. rewrite Hno. cbn.
    now rewrite String.eqb_refl. }
  split; [|split; [|split]].
  - unfold get_user_role. now rewrite Hrows.
  - unfold fetchUserRole. rewrite (truthy_id {| id := new_id |} Hid).
    rewrite select_role_serving. cbn [id]. now rewrite Hrows.
  - unfold authority_or_admin. apply orb_false_iff. split; apply has_role_false;
      intros Hin; apply in_app_or in Hin; destruct Hin as [Hin|[Hin|[]]];
      try discriminate; now apply (Hno _ Hin).
  - intros uid Hne. apply get_user_role_rows. rewrite rows_of_app. cbn.
    destruct (String.eqb_spec new_id uid) as [E|_]; [congruence|].
    apply app_nil_r.
Qed.

(** Account creation in a table that already holds another user's admin
    row. *)
Lemma new_user_resolves_to_citizen_witness :
  let t := [ {| user_id := "u-7"; role := admin |} ] in
  handle_new_user_role t "u-9"
    = Some [ {| user_id := "u-7"; role := admin |};
             {| user_id := "u-9"; role := citizen |} ].
Proof.
  intros t. apply (new_user_resolves_to_citizen t "u-9").
  - discriminate.
  - intros x [<-|[]]. cbn. discriminate.
Defined.

(** When all rows of a user carry the same role, the hook and the SQL
    resolver agree and both return that role. *)
Theorem single_role_resolvers_agree (t : user_roles) (u : User) (r : UserRole) :
  id u <> ""%string -> ~ no_role_row t (id u) ->
  (forall x, In x t -> user_id x = id u -> role x = r) ->
  current_role (fetchUserRole (Serving t) (Some u)) = Some r
  /\ get_user_role t (id u) = Some r.
Proof.
  intros Hid Hrow Hone. split.
  - destruct (fetchUserRole_lowest t u Hid Hrow) as [r' [E [Hin _]]].
    rewrite E. cbn. f_equal. exact (Hone _ Hin eq_refl).
  - destruct (get_user_role_some t (id u) Hrow) as [r' E]. rewrite E. f_equal.
    apply get_user_role_highest in E. destruct E as [Hin _].
    exact (Hone _ Hin eq_refl).
Qed.

(** An authority with a single row, in a table shared with a citizen. *)
Lemma single_role_resolvers_agree_witness :
  let t := [ {| user_id := "u-9"; role := citizen |};
             {| user_id := "u-7"; role := authority |} ] in
  current_role (fetchUserRole (Serving t) (Some {| id := "u-7" |}))
    = Some authority
  /\ get_user_role t "u-7" = Some authority.
Proof.
  intros t. apply (single_role_resolvers_agree t {| id := "u-7" |} authority).
  - discriminate.
  - intros Hno. apply (Hno {| user_id := "u-7"; role := authority |}).
    + right. now left.
    + reflexivity.
  - intros x [<-|[<-|[]]]; cbn; [discriminate | reflexivity].
Defined.

End RolesMore.

(** ** RoleGuard and the hook's shortcuts *)

Module GuardFacts.
Import Roles RolesFacts Guard.

(** Once the effect has run the hook is no longer loading, whatever the
    service did. *)
Lemma fetchUserRole_loaded (s : service) (user : option User) :
  loading (fetchUserRole s user) = false.
Proof.
  unfold fetchUserRole. destruct user as [u|]; [|reflexivity].
  destruct (Js.falsy_string (id u)); [reflexivity|].
  destruct (select_role s (id u)) as [r|]; [|reflexivity].
  destruct (error r) as [e|]; [|reflexivity].
  now destruct (negb (String.eqb (code e) "PGRST116")).
Qed.

(** The guard shows a placeholder before the role is known and never after;
    once the role is known it shows its children exactly to users resolved to
    a role of at least the required rank, and its fallback to everyone else,
    in particular to every signed-out visitor; content open to a role is
    open to every lower requirement. *)
Theorem RoleGuard_children_iff_rank :
  (forall required, RoleGuard initial required = Skeleton)
  /\ (forall s user required,
         RoleGuard (fetchUserRole s user) required <> Skeleton)
  /\ (forall s user required,
         RoleGuard (fetchUserRole s user) required = Children
         <-> exists r, current_role (fetchUserRole s user) = Some r
                       /\ roleHierarchy required <= roleHierarchy r)
  /\ (forall s required, RoleGuard (fetchUserRole s None) required = Fallback)
  /\ (forall h required required',
         roleHierarchy required' <= roleHierarchy required ->
         RoleGuard h required = Children -> RoleGuard h required' = Children).
Proof.
  split; [reflexivity|]. split; [|split; [|split]].
  - intros s user required. unfold RoleGuard.
    rewrite fetchUserRole_loaded. now destruct (negb _).
  - intros s user required. unfold RoleGuard. rewrite fetchUserRole_loaded.
    unfold hasRole. destruct (current_role (fetchUserRole s user)) as [r|]; cbn.
    + destruct (Z.geb_spec (roleHierarchy r) (roleHierarchy required)); cbn.
      * split; [|reflexivity]. intros _. exists r. split; [reflexivity|lia].
      * split; [discriminate|]. intros [r' [[= <-] Hrank]]. lia.
    + split; [discriminate|]. intros [r [[=] _]].
  - reflexivity.
  - intros h required required' Hle. unfold RoleGuard, hasRole.
    destruct (loading h); [discriminate|].
    destruct (current_role h) as [r|]; cbn; [|discriminate].
    destruct (Z.geb_spec (roleHierarchy r) (roleHierarchy required)); cbn;
      [|discriminate].
    intros _.
    destruct (Z.geb_spec (roleHierarchy r) (roleHierarchy required')); cbn;
      [reflexivity|lia].
Qed.

(** Content guarded for authorities, seen by a user resolved to admin, is
    also shown where only citizen is required. *)
Lemma RoleGuard_children_iff_rank_witness :
  let h := fetchUserRole (Serving [ {| user_id := "u-7"; role := admin |} ])
             (Some {| id := "u-7" |}) in
  RoleGuard h authority = Children /\ RoleGuard h citizen = Children.
Proof.
  intros h.
  destruct RoleGuard_children_iff_rank as (_ & _ & _ & _ & Hmono).
  assert (Ha : RoleGuard h authority = Children) by reflexivity.
  split; [exact Ha|].
  apply (Hmono h authority citizen); [cbn; lia | exact Ha].
Defined.

(** [isAdmin] and [isAuthority] are the rank checks for admin and authority;
    [isCitizen] is not the rank check for citizen: it holds only for users
    resolved to citizen itself, that is, for those who pass the citizen check
    and fail the authority check. *)
Theorem shortcuts_and_hasRole (h : hook) :
  isAdmin h = hasRole h admin
  /\ isAuthority h = hasRole h authority
  /\ isCitizen h = hasRole h citizen && negb (hasRole h authority)
  /\ (isCitizen h = true <-> current_role h = Some citizen).
Proof.
  unfold isAdmin, isAuthority, isCitizen, hasRole.
  destruct (current_role h) as [[]|]; cbn; repeat split;
    intros; try discriminate; reflexivity.
Qed.

End GuardFacts.

(** ** Dashboard: coordinates, filters and events *)

Module DashboardMore.
Import Decimal Dashboard DashboardFacts DashboardView.
Local Open Scope string_scope.

Lemma truthy_number_iff (x : option Q) :
  Js.truthy_number x = true <-> exists q, x = Some q /\ ~ (q == 0)%Q.
Proof.
  unfold Js.truthy_number. destruct x as [q|].
  - rewrite negb_true_iff. split.
    + intros H. exists q. split; [reflexivity|]. intros E.
      apply Qeq_bool_iff in E. congruence.
    + intros [q' [[= <-] H]]. destruct (Qeq_bool q 0) eqn:E; [|reflexivity].
      apply Qeq_bool_iff in E. contradiction.
  - split; [discriminate|]. intros [q [[=] _]].
Qed.

(** A report gets a coordinate pair exactly when its latitude and longitude
    are both present and both different from zero: a position on the equator
    or on the prime meridian is treated like a missing one. *)
Theorem coordinates_iff_both_nonzero (r : hazard_reports_row) (la lo : Q) :
  coordinates (mappedReport r) = Some (la, lo)
  <-> latitude r = Some la /\ longitude r = Some lo
      /\ ~ (la == 0)%Q /\ ~ (lo == 0)%Q.
Proof.
  unfold mappedReport. cbn [coordinates]. split.
  - destruct (Js.truthy_number (latitude r)) eqn:Ea; [|discriminate].
    destruct (Js.truthy_number (longitude r)) eqn:Eo; [|discriminate].
    apply truthy_number_iff in Ea. apply truthy_number_iff in Eo.
    destruct Ea as [a [Ha Hna]]. destruct Eo as [o [Ho Hno]].
    rewrite Ha, Ho. cbn. intros [= <- <-]. auto.
  - intros (Ha & Ho & Hna & Hno).
    assert (Ta : Js.truthy_number (latitude r) = true)
      by (apply truthy_number_iff; eauto).
    assert (To : Js.truthy_number (longitude r) = true)
      by (apply truthy_number_iff; eauto).
    rewrite Ta, To, Ha, Ho. reflexivity.
Qed.

Lemma coordinates_none_iff (r : hazard_reports_row) :
  coordinates (mappedReport r) = None
  <-> Js.truthy_number (latitude r) && Js.truthy_number (longitude r) = false.
Proof.
  unfold mappedReport. cbn [coordinates].
  destruct (Js.truthy_number (latitude r)) eqn:Ea;
    destruct (Js.truthy_number (longitude r)) eqn:Eo; cbn;
    try (split; reflexivity).
  apply truthy_number_iff in Ea. apply truthy_number_iff in Eo.
  destruct Ea as [a [-> _]]. destruct Eo as [o [-> _]].
  split; discriminate.
Qed.

(** The filter is the conjunction of its two tests. *)
Lemma keeps_conjunction (filter credibilityFilter : string) (report : HazardReport) :
  keeps filter credibilityFilter report
  = keeps filter "all" report && keeps "all" credibilityFilter report.
Proof.
  unfold keeps. cbn.
  destruct (negb (String.eqb filter "all")
            && urgency_differs (urgency (row report)) filter); reflexivity.
Qed.

Lemma filter_andb {A : Type} (p q : A -> bool) (l : list A) :
  List.filter (fun x => p x && q x) l = List.filter p (List.filter q l).
Proof.
  induction l as [|x l IH]; cbn; [reflexivity|].
  destruct (q x); cbn; [destruct (p x)|rewrite andb_false_r]; now rewrite IH.
Qed.

Lemma filter_all_all (l : list HazardReport) : filteredReports "all" "all" l = l.
Proof.
  unfold filteredReports. induction l as [|r l IH]; cbn; [reflexivity|].
  now rewrite IH.
Qed.

(** The two filters are independent: filtering by both is filtering by the
    credibility band and then by urgency, in either order, and with both set
    to "all" every report is shown. This holds for every filter value, also
    one the selectors do not offer. *)
Theorem filters_compose (filter credibilityFilter : string)
    (l : list HazardReport) :
  filteredReports filter credibilityFilter l
    = filteredReports filter "all" (filteredReports "all" credibilityFilter l)
  /\ filteredReports filter credibilityFilter l
     = filteredReports "all" credibilityFilter (filteredReports filter "all" l)
  /\ filteredReports "all" "all" l = l.
Proof.
  unfold filteredReports. split; [|split].
  - rewrite <- filter_andb. apply filter_ext. intros r. apply keeps_conjunction.
  - rewrite <- filter_andb. apply filter_ext. intros r.
    rewrite keeps_conjunction. apply andb_comm.
  - apply filter_all_all.
Qed.

Lemma band_exclusive (score : decimal) :
  (Nat.b2n (score >=? 70)%Z + Nat.b2n ((score >=? 40) && (score <? 70))%Z
   + Nat.b2n (score <? 40)%Z = 1)%nat.
Proof.
  destruct (Z.geb_spec score 70), (Z.geb_spec score 40), (Z.ltb_spec score 70),
    (Z.ltb_spec score 40); cbn; lia.
Qed.

Lemma keeps_bands (filter : string) (report : HazardReport) :
  (Nat.b2n (keeps filter "high" report) + Nat.b2n (keeps filter "medium" report)
   + Nat.b2n (keeps filter "low" report)
   = Nat.b2n (keeps filter "all" report))%nat.
Proof.
  change "high" with (selection_value High).
  change "medium" with (selection_value Medium).
  change "low" with (selection_value Low).
  change "all" with (selection_value AllLevels).
  rewrite !keeps_unfold.
  destruct (negb (String.eqb filter "all")
            && urgency_differs (urgency (row report)) filter); [reflexivity|].
  cbv zeta. apply band_exclusive.
Qed.

Lemma length_filter_b2n {A : Type} (p : A -> bool) (l : list A) :
  List.length (List.filter p l) = fold_right (fun x n => (Nat.b2n (p x) + n)%nat) 0%nat l.
Proof.
  induction l as [|x l IH]; cbn; [reflexivity|].
  destruct (p x); cbn; now rewrite IH.
Qed.

(** The three credibility bands partition the reports: under any urgency
    filter every report that passes it is listed under exactly one of "high",
    "medium" and "low", reports without a score and reports with a score of
    zero included. *)
Theorem credibility_bands_partition (filter : string) (l : list HazardReport) :
  (List.length (filteredReports filter "high" l)
   + List.length (filteredReports filter "medium" l)
   + List.length (filteredReports filter "low" l)
   = List.length (filteredReports filter "all" l))%nat
  /\ forall report,
       In report (filteredReports filter "all" l) ->
       (Nat.b2n (keeps filter "high" report)
        + Nat.b2n (keeps filter "medium" report)
        + Nat.b2n (keeps filter "low" report) = 1)%nat.
Proof.
  split.
  - unfold filteredReports. rewrite !length_filter_b2n.
    induction l as [|r l IH]; cbn; [reflexivity|].
    pose proof (keeps_bands filter r). lia.
  - intros report Hin. unfold filteredReports in Hin.
    apply filter_In in Hin. destruct Hin as [_ Hk].
    rewrite keeps_bands, Hk. reflexivity.
Qed.

(** Two reports, one without a score: each falls in exactly one band. *)
Lemma credibility_bands_partition_witness :
  let l := [ sample "r-1" (Some "high") None; sample "r-2" (Some "low") (Some 0) ] in
  (Nat.b2n (keeps "all" "high" (sample "r-1" (Some "high") None))
   + Nat.b2n (keeps "all" "medium" (sample "r-1" (Some "high") None))
   + Nat.b2n (keeps "all" "low" (sample "r-1" (Some "high") None)) = 1)%nat.
Proof.
  intros l. destruct (credibility_bands_partition "all" l) as [_ H].
  apply H. cbn. now left.
Defined.

(** A report without an urgency is labelled "medium" in the list and drawn as
    a medium marker, but the urgency filter "medium" hides it: it is listed
    only when the urgency filter is "all". *)
Theorem missing_urgency_shown_only_under_all (report : HazardReport)
    (credibilityFilter : string) :
  urgency (row report) = None ->
  urgency_or_medium (urgency (row report)) = "medium"
  /\ keeps "medium" credibilityFilter report = false
  /\ forall filter, keeps filter credibilityFilter report = true -> filter = "all".
Proof.
  intros Hu. rewrite Hu. split; [reflexivity|]. split.
  - unfold keeps. rewrite Hu. reflexivity.
  - intros filter. unfold keeps. rewrite Hu. cbn.
    destruct (String.eqb_spec filter "all") as [->|_]; [reflexivity|].
    cbn. discriminate.
Qed.

Lemma missing_urgency_shown_only_under_all_witness :
  keeps "medium" "all" (sample "r-5" None (Some 60)) = false.
Proof.
  apply (missing_urgency_shown_only_under_all (sample "r-5" None (Some 60)) "all").
  reflexivity.
Defined.

End DashboardMore.

(** ** Dashboard: sequences of change events *)

Module DashboardLive.
Import Decimal Dashboard DashboardFacts DashboardView.
Local Open Scope string_scope.

(** The identifiers listed, in list order. *)
Local Abbreviation ids l := (map (fun report => id (row report)) l).

Lemma on_update_ids (new : hazard_reports_row) (l : list HazardReport) :
  ids (on_update new l) = ids l.
Proof.
  unfold on_update. rewrite map_map. apply map_ext. intros r.
  destruct (String.eqb_spec (id (row r)) (id new)) as [E|_]; [|reflexivity].
  cbn. now rewrite E.
Qed.

(** An update event changes neither which identifiers are listed nor their
    order; in particular a list without duplicate identifiers stays without
    duplicates, and its length stays the same. *)
Theorem update_preserves_identifiers (new : hazard_reports_row)
    (l : list HazardReport) :
  ids (handle (UPDATE new) l) = ids l
  /\ (NoDup (ids l) -> NoDup (ids (handle (UPDATE new) l)))
  /\ List.length (handle (UPDATE new) l) = List.length l.
Proof.
  cbn [handle]. split; [apply on_update_ids|]. split.
  - now rewrite on_update_ids.
  - apply on_update_length.
Qed.

Lemma update_preserves_identifiers_witness :
  let l := [ sample "r-1" None (Some 30); sample "r-2" None (Some 50) ] in
  NoDup (ids (handle (UPDATE (sample_row "r-2" (Some "high") (Some 90))) l)).
Proof.
  intros l.
  apply (update_preserves_identifiers (sample_row "r-2" (Some "high") (Some 90)) l).
  cbn. repeat constructor; cbn; intuition discriminate.
Defined.

(** An insert event never deduplicates: the new report is listed once more
    even when its identifier is already listed, so the identifiers stay
    without duplicates exactly when the inserted identifier is new. *)
Theorem insert_does_not_deduplicate (new : hazard_reports_row)
    (l : list HazardReport) :
  NoDup (ids (handle (INSERT new) l))
  <-> ~ In (id new) (ids l) /\ NoDup (ids l).
Proof. cbn. apply NoDup_cons_iff. Qed.

Lemma handle_all_app (es es' : list change_event) (l : list HazardReport) :
  handle_all (es ++ es') l = handle_all es' (handle_all es l).
Proof. apply fold_left_app. Qed.

(** Under any sequence of change events the list grows by exactly the number
    of insert events in it: updates never add or remove an entry, and nothing
    ever removes one. *)
Theorem events_grow_list_by_inserts (events : list change_event)
    (l : list HazardReport) :
  List.length (handle_all events l) = (List.length l + inserts events)%nat.
Proof.
  revert l. unfold handle_all, inserts.
  induction events as [|e es IH]; intros l; cbn [fold_left List.filter].
  - cbn. lia.
  - rewrite IH. destruct e as [r|r]; cbn [handle].
    + cbn. lia.
    + rewrite on_update_length. lia.
Qed.

(** Updates of one report are last-write-wins: after two update events for
    the same identifier the list is as if only the second had arrived; an
    update event delivered twice has the effect of one delivery. *)
Theorem update_last_write_wins (first second : hazard_reports_row)
    (l : list HazardReport) :
  id first = id second ->
  handle (UPDATE second) (handle (UPDATE first) l) = handle (UPDATE second) l.
Proof.
  intros Hid. cbn [handle]. unfold on_update. rewrite map_map.
  apply map_ext. intros r.
  destruct (String.eqb_spec (id (row r)) (id first)) as [E|N].
  - cbn. rewrite <- Hid, String.eqb_refl, E, Hid, String.eqb_refl. reflexivity.
  - destruct (String.eqb_spec (id (row r)) (id second)) as [E'|_];
      [congruence | reflexivity].
Qed.

Lemma update_last_write_wins_witness :
  let l := [ sample "r-1" None (Some 30); sample "r-2" None (Some 50) ] in
  handle (UPDATE (sample_row "r-2" (Some "high") (Some 90)))
    (handle (UPDATE (sample_row "r-2" (Some "low") (Some 20))) l)
  = handle (UPDATE (sample_row "r-2" (Some "high") (Some 90))) l.
Proof.
  intros l.
  apply (update_last_write_wins (sample_row "r-2" (Some "low") (Some 20))
           (sample_row "r-2" (Some "high") (Some 90)) l).
  reflexivity.
Defined.

(** An update event that follows the insert event of the same report acts on
    the inserted entry: the list then starts with the updated report. *)
Theorem update_after_insert (new updated : hazard_reports_row)
    (l : list HazardReport) :
  id new = id updated ->
  handle_all [INSERT new; UPDATE updated] l
  = mappedReport updated :: handle (UPDATE updated) l.
Proof.
  intros Hid. cbn. now rewrite Hid, String.eqb_refl.
Qed.

Lemma update_after_insert_witness :
  handle_all [INSERT (sample_row "r-1" None (Some 30));
              UPDATE (sample_row "r-1" (Some "high") (Some 80))] []
  = [ sample "r-1" (Some "high") (Some 80) ].
Proof.
  apply (update_after_insert (sample_row "r-1" None (Some 30))
           (sample_row "r-1" (Some "high") (Some 80)) []).
  reflexivity.
Defined.

End DashboardLive.

(** ** Dashboard: markers *)

Module MarkerFacts.
Import Decimal Dashboard DashboardFacts DashboardMore DashboardView.
Local Open Scope string_scope.

Lemma report_marker_position (report : HazardReport) (m : marker) :
  report_marker report = Some m -> coordinates report = Some (position m).
Proof.
  unfold report_marker. destruct (coordinates report) as [c|]; [|discriminate].
  now intros [= <-].
Qed.

(** The colour and the radius of a report's marker always name the same
    credibility band of the score the dashboard works with (the report's
    score, or 0.50 when it is missing or zero): green and 15 from 0.70, orange
    and 12 from 0.40, red and 10 below. The urgency never decides the colour.
    The marker pulses exactly when the shown urgency is "high" or the score is
    at least 0.80, and it sits at the report's coordinates. *)
Theorem marker_shows_credibility_band (report : HazardReport) (m : marker) :
  report_marker report = Some m ->
  let score := Js.or_decimal (credibility_score (row report)) 50 in
  coordinates report = Some (position m)
  /\ fillColor m = color m
  /\ ((70 <= score /\ color m = "#059669" /\ radius m = 15)
      \/ (40 <= score < 70 /\ color m = "#ea580c" /\ radius m = 12)
      \/ (score < 40 /\ color m = "#dc2626" /\ radius m = 10))
  /\ (className m = "animate-pulse"
      <-> urgency_or_medium (urgency (row report)) = "high" \/ 80 <= score).
Proof.
  unfold report_marker. destruct (coordinates report) as [c|]; [|discriminate].
  cbv zeta. intros [= <-]. cbn [position color fillColor radius className].
  set (score := Js.or_decimal _ _).
  split; [reflexivity|]. split; [reflexivity|]. split.
  - unfold getMarkerColor, getCredibilityColor.
    destruct (Z.geb_spec score 70); [left; repeat split; lia|].
    destruct (Z.geb_spec score 40); [right; left|right; right]; repeat split; lia.
  - destruct (String.eqb_spec (urgency_or_medium (urgency (row report))) "high")
      as [E|N]; cbn.
    + split; auto.
    + destruct (Z.geb_spec score 80); cbn.
      * split; auto.
      * split; [discriminate|]. intros [?|?]; [contradiction|lia].
Qed.

(** A report without a score is drawn orange with radius 12. *)
Lemma marker_shows_credibility_band_witness :
  exists m, report_marker (sample "r-6" (Some "low") None) = Some m
            /\ color m = "#ea580c" /\ radius m = 12.
Proof.
  eexists. split; [reflexivity|].
  destruct (marker_shows_credibility_band (sample "r-6" (Some "low") None) _ eq_refl)
    as (_ & _ & [(H & _)|[(_ & Hc & Hr)|(H & _)]] & _).
  - vm_compute in H. now destruct H.
  - split; [exact Hc | exact Hr].
  - vm_compute in H. discriminate.
Defined.

Lemma report_markers_length (l : list HazardReport) :
  List.length (report_markers l)
  = List.length (List.filter (fun r => match coordinates r with
                                       | Some _ => true
                                       | None => false
                                       end) l).
Proof.
  induction l as [|r l IH]; cbn; [reflexivity|].
  unfold report_marker. destruct (coordinates r); cbn; now rewrite IH.
Qed.

Lemma report_markers_In (l : list HazardReport) (m : marker) :
  In m (report_markers l) ->
  exists report, In report l /\ report_marker report = Some m.
Proof.
  induction l as [|r l IH]; cbn; [intros []|].
  destruct (report_marker r) as [m'|] eqn:E.
  - intros [<-|H]; [exists r; auto|].
    destruct (IH H) as [x [Hx Hm]]. exists x. auto.
  - intros H. destruct (IH H) as [x [Hx Hm]]. exists x. auto.
Qed.

(** The demonstration markers appear exactly when the filtered list is empty.
    When it is not, the map holds one marker per listed report that has
    coordinates and nothing else, so a non-empty list of reports without
    coordinates leaves the map empty. *)
Theorem markers_of_filtered_reports (l : list HazardReport) :
  markers [] = map demo_marker demoMarkers
  /\ (l <> [] ->
      markers l = report_markers l
      /\ (forall m, In m (markers l) ->
            exists report, In report l
                           /\ coordinates report = Some (position m))
      /\ ((forall report, In report l -> coordinates report = None) ->
          markers l = [])).
Proof.
  split; [reflexivity|]. intros Hne.
  assert (E : markers l = report_markers l).
  { unfold markers. destruct l as [|r l]; [congruence|]. cbn. apply app_nil_r. }
  split; [exact E|]. split.
  - intros m Hm. rewrite E in Hm.
    destruct (report_markers_In l m Hm) as [r [Hr Hrm]]. exists r.
    split; [exact Hr|].
    now apply report_marker_position.
  - intros Hnone. rewrite E. clear E Hne.
    induction l as [|r l IH]; [reflexivity|]. cbn. unfold report_marker.
    rewrite (Hnone r (or_introl eq_refl)). apply IH.
    intros x Hx. apply Hnone. now right.
Qed.

(** A report located on the equator has no coordinates: alone in the list it
    leaves the map without any marker. *)
Lemma markers_of_filtered_reports_witness :
  let on_equator :=
    mappedReport
      {| id := "r-8"; user_id := "u-9"; hazard_type := "Erosion";
         description := "Cliff edge"; location := "0, 73.1";
         contact_number := None; image_url := None; status := "submitted";
         urgency := Some "low"; credibility_score := Some 40;
         latitude := Some 0%Q; longitude := Some (731 # 10)%Q;
         created_at := "2025-09-13T10:58:58Z";
         updated_at := "2025-09-13T10:58:58Z" |} in
  markers [on_equator] = [].
Proof.
  intros r.
  destruct (markers_of_filtered_reports [r]) as [_ H].
  destruct H as (_ & _ & Hnone); [discriminate|].
  apply Hnone. intros x [<-|[]]. reflexivity.
Defined.

(** After a successful fetch with both filters at "all", the number of report
    markers is the number of fetched rows whose latitude and longitude are
    both present and non-zero; the fetched rows are listed in the order
    received. *)
Theorem fetched_rows_on_the_map (rows : list hazard_reports_row) (d : listing) :
  let d' := fetchReports (Answered (Some rows) None) d in
  map row (reports d') = rows
  /\ loading d' = false
  /\ List.length (report_markers (filteredReports "all" "all" (reports d')))
     = List.length
         (List.filter
            (fun r => Js.truthy_number (latitude r) && Js.truthy_number (longitude r))
            rows).
Proof.
  cbv zeta. unfold fetchReports. cbn [reports loading].
  split; [|split; [reflexivity|]].
  - rewrite map_map. cbn. apply map_id.
  - rewrite filter_all_all.
    rewrite report_markers_length.
    induction rows as [|r rows IH]; cbn [map List.filter]; [reflexivity|].
    destruct (Js.truthy_number (latitude r) && Js.truthy_number (longitude r)) eqn:E.
    + destruct (coordinates (mappedReport r)) eqn:C.
      * cbn. now rewrite IH.
      * apply coordinates_none_iff in C. congruence.
    + apply coordinates_none_iff in E. rewrite E. exact IH.
Qed.

(** A fetch that fails, is answered with an error, or is answered without
    data keeps the reports already listed; every fetch ends the loading
    state. *)
Theorem failed_fetch_keeps_reports (f : fetched) (d : listing) :
  loading (fetchReports f d) = false
  /\ ((forall rows, f <> Answered (Some rows) None) ->
      reports (fetchReports f d) = reports d).
Proof.
  split.
  - destruct f as [[rows|] [e|]|]; reflexivity.
  - intros H. destruct f as [[rows|] [e|]|]; try reflexivity.
    now destruct (H rows).
Qed.

Lemma failed_fetch_keeps_reports_witness :
  let d := {| reports := [ sample "r-1" None (Some 30) ]; loading := true |} in
  reports (fetchReports Failed d) = [ sample "r-1" None (Some 30) ].
Proof.
  intros d. apply (failed_fetch_keeps_reports Failed d). discriminate.
Defined.

End MarkerFacts.

(** ** Relative timestamps *)

Module TimestampFacts.
Import DashboardView.
Local Open Scope string_scope.

Local Abbreviation text n := (DecimalString.NilZero.string_of_int (Z.to_int n)).

Lemma formatTimestamp_unfold (now t : Z) :
  formatTimestamp now (Some t) =
  if (now - t) / 3600000 >? 24 then text ((now - t) / 3600000 / 24) ++ " days ago"
  else if (now - t) / 3600000 >? 0 then text ((now - t) / 3600000) ++ " hours ago"
  else if (now - t) / 60000 >? 0 then text ((now - t) / 60000) ++ " minutes ago"
  else "Just now".
Proof. reflexivity. Qed.

(** The label depends on the age [now - t] of the timestamp in milliseconds:
    below one minute, which includes timestamps in the future, and for a text
    that is not a date, it is "Just now"; from one minute it counts whole
    minutes (1 to 59); from one hour whole hours, and that up to 24, since a
    day is counted only from 25 hours on; from 25 hours whole days. Units are
    always plural. *)
Theorem formatTimestamp_by_age (now t : Z) :
  formatTimestamp now None = "Just now"
  /\ (now - t < 60000 -> formatTimestamp now (Some t) = "Just now")
  /\ (60000 <= now - t < 3600000 ->
      formatTimestamp now (Some t) = text ((now - t) / 60000) ++ " minutes ago"
      /\ 1 <= (now - t) / 60000 <= 59)
  /\ (3600000 <= now - t < 90000000 ->
      formatTimestamp now (Some t) = text ((now - t) / 3600000) ++ " hours ago"
      /\ 1 <= (now - t) / 3600000 <= 24)
  /\ (90000000 <= now - t ->
      formatTimestamp now (Some t) = text ((now - t) / 86400000) ++ " days ago"
      /\ 1 <= (now - t) / 86400000).
Proof.
  split; [reflexivity|]. rewrite formatTimestamp_unfold.
  set (d := now - t). rewrite !Z.gtb_ltb.
  split; [|split; [|split]]; intros H.
  - assert (d / 3600000 <= 0) by (Z.to_euclidean_division_equations; lia).
    assert (d / 60000 <= 0) by (Z.to_euclidean_division_equations; lia).
    destruct (Z.ltb_spec 24 (d / 3600000)); [lia|].
    destruct (Z.ltb_spec 0 (d / 3600000)); [lia|].
    destruct (Z.ltb_spec 0 (d / 60000)); [lia|]. reflexivity.
  - assert (d / 3600000 = 0) by (Z.to_euclidean_division_equations; lia).
    assert (1 <= d / 60000 <= 59) by (Z.to_euclidean_division_equations; lia).
    destruct (Z.ltb_spec 24 (d / 3600000)); [lia|].
    destruct (Z.ltb_spec 0 (d / 3600000)); [lia|].
    destruct (Z.ltb_spec 0 (d / 60000)); [|lia]. split; [reflexivity|lia].
  - assert (1 <= d / 3600000 <= 24) by (Z.to_euclidean_division_equations; lia).
    destruct (Z.ltb_spec 24 (d / 3600000)); [lia|].
    destruct (Z.ltb_spec 0 (d / 3600000)); [|lia]. split; [reflexivity|lia].
  - assert (25 <= d / 3600000) by (Z.to_euclidean_division_equations; lia).
    assert (E : d / 3600000 / 24 = d / 86400000)
      by (rewrite Z.div_div by lia; reflexivity).
    destruct (Z.ltb_spec 24 (d / 3600000)); [|lia]. rewrite E.
    split; [reflexivity|]. Z.to_euclidean_division_equations; lia.
Qed.

(** A report filed 24 hours and 59 minutes ago is "24 hours ago"; one minute
    later it is "1 days ago". *)
Lemma formatTimestamp_by_age_witness :
  formatTimestamp 1757850000000 (Some (1757850000000 - 89940000)) = "24 hours ago"
  /\ formatTimestamp 1757850000000 (Some (1757850000000 - 90000000)) = "1 days ago".
Proof.
  split.
  - destruct (formatTimestamp_by_age 1757850000000 (1757850000000 - 89940000))
      as (_ & _ & _ & H & _).
    destruct H as [H _]; [lia|]. exact H.
  - destruct (formatTimestamp_by_age 1757850000000 (1757850000000 - 90000000))
      as (_ & _ & _ & _ & H).
    destruct H as [H _]; [lia|]. exact H.
Defined.

End TimestampFacts.

(** ** Report intake: every path of the handler *)

Module IntakeMore.
Import Decimal Intake IntakeFacts IntakeView.
Local Open Scope string_scope.

(** Unfolds the handler down to the state it builds. *)
Ltac run_submit :=
  unfold new_requests, new_toasts, submit, handleSubmit, try_catch_finally,
    upload_image, bind, get, ask, ret, throw, storage_upload,
    rpc_calculate_credibility_score, insert_report, toast, console_error,
    setIsSubmitting, resetForm, onClose, modify;
  cbn.

(** Splits on what decides the handler's path: the user, the required
    fields, the image, the upload and the insert. *)
Ltac submit_cases b s :=
  run_submit;
  destruct (user s) as [?u|] eqn:?Hu; cbn;
  [ destruct (missing_required (formData s)) eqn:?Hm; cbn;
    [ | destruct (imageFile s) as [?f|] eqn:?Hf; cbn;
        [ destruct (uploadError b) as [?m|] eqn:?He; cbn;
          [ | destruct (insertError b) as [?m|] eqn:?Hi; cbn ]
        | destruct (insertError b) as [?m|] eqn:?Hi; cbn ] ]
  | ].

(** Normalises the suffix that a submission adds to a log. *)
Ltac added :=
  repeat rewrite <- app_assoc; cbn [app];
  rewrite ?skipn_length_app, ?skipn_length_self.

(** Every submission that passes the guards ends with the submitting flag
    cleared, whatever failed on the way; a submission stopped by a guard
    leaves the flag as it was. *)
Theorem submitting_flag_after_submit (b : backend) (s : state) :
  isSubmitting (submit b s) = isSubmitting s && negb (passes_guards s).
Proof.
  unfold passes_guards. submit_cases b s;
    rewrite ?andb_true_r, ?andb_false_r; reflexivity.
Qed.

(** The requests of a submission, by kind and in order: none when a guard
    stops it; otherwise the upload comes first when an image is attached, and
    the scoring call and the insert follow only if the image step succeeded.
    The insert is never issued without the scoring call before it, and it is
    issued even when the scoring call fails. *)
Theorem requests_of_a_submission (b : backend) (s : state) :
  map kind_of (new_requests b s) =
  if passes_guards s then
    match imageFile s with
    | Some _ =>
        Uploading :: match uploadError b with
                     | Some _ => []
                     | None => [Scoring; Inserting]
                     end
    | None => [Scoring; Inserting]
    end
  else [].
Proof.
  unfold passes_guards. submit_cases b s; added; reflexivity.
Qed.

(** A report is stored exactly when the submission is accepted; then exactly
    one row is appended, carrying the user's identifier and the form's
    values, with an empty contact number stored as null and an image URL
    present exactly when an image was attached. Otherwise the report store is
    unchanged. Rows already stored are never touched. *)
Theorem report_stored_iff_accepted (b : backend) (s : state) :
  (accepted b s = false -> hazard_reports (submit b s) = hazard_reports s)
  /\ (accepted b s = true ->
      exists r u,
        hazard_reports (submit b s) = (hazard_reports s ++ [r])%list
        /\ user s = Some u
        /\ ins_user_id r = Roles.id u
        /\ ins_hazard_type r = hazardType (formData s)
        /\ ins_description r = description (formData s)
        /\ ins_location r = location (formData s)
        /\ ins_contact_number r = string_or_null (contactNumber (formData s))
        /\ (ins_image_url r = None <-> imageFile s = None)).
Proof.
  unfold accepted, passes_guards, image_step_succeeds.
  submit_cases b s; split; intros H; try discriminate H; try reflexivity;
    (eexists; eexists; repeat split; intros; discriminate).
Qed.

Lemma report_stored_iff_accepted_witness :
  let s := opened (Some Roles.coast_guard) high_waves_form None in
  exists r, hazard_reports (submit accepting s) = [r]
            /\ ins_description r = description high_waves_form.
Proof.
  intros s.
  destruct (report_stored_iff_accepted accepting s) as [_ H].
  destruct (H eq_refl) as (r & u & Hr & _ & _ & _ & Hd & _).
  exists r. split; [exact Hr | exact Hd].
Defined.

(** The form is cleared and closed, with the success message, exactly when
    the report was stored. On every failure the user's input (fields, image,
    location) is kept, the form stays as it was, and exactly one message is
    shown, marked destructive. *)
Theorem form_cleared_iff_accepted (b : backend) (s : state) :
  (accepted b s = true ->
   formData (submit b s) = empty_form
   /\ imageFile (submit b s) = None
   /\ currentLocation (submit b s) = None
   /\ closed (submit b s) = true
   /\ new_toasts b s = [submitted_successfully])
  /\ (accepted b s = false ->
      formData (submit b s) = formData s
      /\ imageFile (submit b s) = imageFile s
      /\ currentLocation (submit b s) = currentLocation s
      /\ closed (submit b s) = closed s
      /\ exists t, new_toasts b s = [t] /\ variant t = Some "destructive").
Proof.
  unfold accepted, passes_guards, image_step_succeeds.
  submit_cases b s; added; split; intros H; try discriminate H;
    repeat split; eauto.
Qed.

Lemma form_cleared_iff_accepted_witness :
  let s := opened (Some Roles.coast_guard) high_waves_form (Some photo) in
  formData (submit insert_refused s) = high_waves_form
  /\ imageFile (submit insert_refused s) = Some photo.
Proof.
  intros s.
  destruct (form_cleared_iff_accepted insert_refused s) as [_ H].
  destruct (H eq_refl) as (Hf & Hi & _). split; [exact Hf | exact Hi].
Defined.

(** When the image is uploaded and the insert is then refused, the uploaded
    object stays in the bucket although no report refers to it: the handler
    never removes an object, and the message names the insert error. *)
Theorem refused_insert_leaves_image (b : backend) (s : state)
    (file : File) (message : string) :
  passes_guards s = true -> imageFile s = Some file ->
  uploadError b = None -> insertError b = Some message ->
  report_images (submit b s)
    = (report_images s ++ [(file_name (now b) file, file)])%list
  /\ hazard_reports (submit b s) = hazard_reports s
  /\ new_toasts b s
     = [submission_failed (Error ("Failed to save report: " ++ message))].
Proof.
  unfold passes_guards. intros Hg Hf Hu Hi. revert Hg.
  run_submit. destruct (user s) as [u|]; [|discriminate].
  destruct (missing_required (formData s)); [discriminate|]. intros _.
  cbn. rewrite Hf. cbn. rewrite Hu. cbn. rewrite Hi. cbn. added.
  repeat split.
Qed.

Lemma refused_insert_leaves_image_witness :
  let s := opened (Some Roles.coast_guard) high_waves_form (Some photo) in
  report_images (submit insert_refused s) = [("1757760000123-wall.jpg", photo)]
  /\ hazard_reports (submit insert_refused s) = [].
Proof.
  intros s.
  destruct (refused_insert_leaves_image insert_refused s photo
              "new row violates row-level security policy"
              eq_refl eq_refl eq_refl eq_refl) as (Hi & Hr & _).
  split; [exact Hi | exact Hr].
Defined.

End IntakeMore.

(** ** Report intake: the score and the stored row *)

Module IntakeScore.
Import Decimal Intake IntakeFacts IntakeView IntakeMore.
Local Open Scope string_scope.

Lemma or_decimal_score (rpc : option string) (hi hl : bool) (len : Z) :
  let data :=
    match rpc with
    | Some _ => None
    | None =>
        Some (Scorer.calculate_credibility_score (Some hi) (Some hl) (Some len)
                (Some 0))
    end in
  10 <= Js.or_decimal data 50 <= 70
  /\ (rpc <> None -> Js.or_decimal data 50 = 50)
  /\ (rpc = None ->
      Js.or_decimal data 50
      = 10 + (if hi then 30 else 0) + (if hl then 20 else 0)
           + (if len >? 50 then 10 else 0)).
Proof.
  destruct rpc as [e|]; cbn.
  - repeat split; try lia; congruence.
  - rewrite ScorerFacts.calculate_credibility_score_sum. cbn [Sql.is_true Sql.gt].
    destruct hi, hl, (len >? 50); cbn; repeat split; try lia; congruence.
Qed.

(** Resolves membership of a request in a short, explicit log. *)
Ltac in_log :=
  repeat match goal with
    | H : In _ [] |- _ => destruct H
    | H : In _ (_ :: _) |- _ => destruct H as [H|H]
    | H : Upload _ _ = Rpc _ |- _ => discriminate H
    | H : Upload _ _ = Insert _ |- _ => discriminate H
    | H : Insert _ = Rpc _ |- _ => discriminate H
    | H : Rpc _ = Insert _ |- _ => discriminate H
    | H : Rpc _ = Rpc _ |- _ => injection H as <-
    | H : Insert _ = Insert _ |- _ => injection H as <-
    end.

(** The scoring call of a submission reports an image exactly when one is
    attached, the length of the description, and always a nearby count of
    zero. The score stored with the report is therefore between 0.10 and
    0.70: the base plus the image, location and description bonuses when the
    call succeeds, and 0.50 when it fails. *)
Theorem stored_score_of_a_submission (b : backend) (s : state) :
  (forall args, In (Rpc args) (new_requests b s) ->
     nearby_reports_count args = 0
     /\ description_length args
        = Z.of_nat (String.length (description (formData s)))
     /\ (has_image args = true <-> imageFile s <> None))
  /\ (forall args r,
        In (Rpc args) (new_requests b s) -> In (Insert r) (new_requests b s) ->
        10 <= ins_credibility_score r <= 70
        /\ (rpcError b <> None -> ins_credibility_score r = 50)
        /\ (rpcError b = None ->
            ins_credibility_score r
            = 10 + (if has_image args then 30 else 0)
                 + (if has_location args then 20 else 0)
                 + (if description_length args >? 50 then 10 else 0))).
Proof.
  submit_cases b s; added; split.
  all: try (intros args Ha; in_log; cbn; repeat split; intros; congruence).
  all: intros args r Ha Hr; in_log; cbn; apply or_decimal_score.
Qed.

Lemma stored_score_of_a_submission_witness :
  let s := opened (Some Roles.coast_guard) high_waves_form (Some photo) in
  In (Rpc sample_args) (new_requests accepting s)
  /\ In (Insert sample_insert) (new_requests accepting s)
  /\ 10 <= ins_credibility_score sample_insert <= 70.
Proof.
  intros s.
  assert (Ha : In (Rpc sample_args) (new_requests accepting s))
    by (right; left; reflexivity).
  assert (Hr : In (Insert sample_insert) (new_requests accepting s))
    by (right; right; left; reflexivity).
  split; [exact Ha|]. split; [exact Hr|].
  destruct (stored_score_of_a_submission accepting s) as [_ H].
  exact (proj1 (H sample_args sample_insert Ha Hr)).
Defined.

Lemma truthy_coordinate_or_null (x : option Q) :
  Js.truthy_number (coordinate_or_null x) = Js.truthy_number x.
Proof.
  unfold coordinate_or_null. now destruct (Js.truthy_number x) eqn:E.
Qed.

(** From the form to the map: for whatever identifier and time the database
    assigns, the report stored by a submission has coordinates on the
    dashboard exactly when the scoring call was told it has a location, and
    an image URL exactly when the call was told it has an image. With the
    default urgency it is listed under the urgency filters "all" and "medium"
    only. *)
Theorem stored_report_on_dashboard (b : backend) (s : state)
    (args : score_args) (r : report_insert) (new_id ts : string) :
  In (Rpc args) (new_requests b s) -> In (Insert r) (new_requests b s) ->
  let report := Dashboard.mappedReport (stored_row new_id ts r) in
  (has_location args = true <-> Dashboard.coordinates report <> None)
  /\ (has_image args = true <-> ins_image_url r <> None)
  /\ (forall filter, Dashboard.keeps filter "all" report = true
                     <-> filter = "all" \/ filter = "medium").
Proof.
  intros Ha Hr report.
  assert (Hu : forall filter, Dashboard.keeps filter "all" report = true
                              <-> filter = "all" \/ filter = "medium").
  { intros filter. subst report. unfold Dashboard.keeps.
    cbn -[String.eqb]. rewrite String.eqb_refl. cbn -[String.eqb].
    destruct (String.eqb_spec filter "all") as [->|Na]; [split; auto|].
    destruct (String.eqb_spec "medium" filter) as [<-|Nm]; [split; auto|].
    cbn. split; [discriminate|]. intros [?|?]; congruence. }
  assert (Hc : Dashboard.coordinates report <> None
               <-> Js.truthy_number (ins_latitude r)
                   && Js.truthy_number (ins_longitude r) = true).
  { subst report. rewrite DashboardMore.coordinates_none_iff. cbn.
    destruct (Js.truthy_number (ins_latitude r) && Js.truthy_number (ins_longitude r));
      split; congruence. }
  rewrite Hc. clear Hc. split; [|split; [|exact Hu]]; clear Hu report;
    revert Ha Hr; revert args r.
  - submit_cases b s; added; intros args r Ha Hr; in_log; cbn;
      rewrite !truthy_coordinate_or_null; reflexivity.
  - submit_cases b s; added; intros args r Ha Hr; in_log; cbn;
      split; congruence.
Qed.

Lemma stored_report_on_dashboard_witness :
  let s := opened (Some Roles.coast_guard) high_waves_form (Some photo) in
  let report :=
    Dashboard.mappedReport
      (stored_row "r-10" "2025-09-13T10:58:58Z" sample_insert) in
  In (Rpc sample_args) (new_requests accepting s)
  /\ In (Insert sample_insert) (new_requests accepting s)
  /\ (has_location sample_args = true <-> Dashboard.coordinates report <> None).
Proof.
  intros s report.
  assert (Ha : In (Rpc sample_args) (new_requests accepting s))
    by (right; left; reflexivity).
  assert (Hr : In (Insert sample_insert) (new_requests accepting s))
    by (right; right; left; reflexivity).
  split; [exact Ha|]. split; [exact Hr|].
  exact (proj1 (stored_report_on_dashboard accepting s sample_args sample_insert
                  "r-10" "2025-09-13T10:58:58Z" Ha Hr)).
Defined.

End IntakeScore.

(** ** Rows in SQL order: sortedness *)

Module QueryMore.
Import Query QueryFacts.

Section OrderBy.
Context {A : Type} (key : A -> Z).

Lemma insert_by_perm (x : A) (l : list A) :
  Permutation (insert_by key x l) (x :: l).
Proof.
  induction l as [|y l IH]; cbn; [reflexivity|].
  destruct (key x <=? key y); [reflexivity|].
  rewrite IH. apply perm_swap.
Qed.

(** Ordering keeps every row, with its multiplicity. *)
Lemma order_by_perm (l : list A) : Permutation (order_by key l) l.
Proof.
  induction l as [|x l IH]; [reflexivity|].
  change (order_by key (x :: l)) with (insert_by key x (order_by key l)).
  rewrite insert_by_perm. now constructor.
Qed.

Lemma insert_by_sorted (x : A) (l : list A) :
  StronglySorted (fun a b => key a <= key b) l ->
  StronglySorted (fun a b => key a <= key b) (insert_by key x l).
Proof.
  induction l as [|y l IH]; intros Hs; cbn.
  - constructor; constructor.
  - inversion Hs as [|? ? Hl Hy]; subst.
    destruct (key x <=? key y) eqn:C.
    + apply Z.leb_le in C. constructor; [exact Hs|].
      constructor; [exact C|].
      eapply Forall_impl; [|exact Hy]. cbn. intros; lia.
    + apply Z.leb_gt in C. constructor; [now apply IH|].
      eapply Permutation_Forall; [symmetry; apply insert_by_perm|].
      constructor; [lia | exact Hy].
Qed.

(** The rows come out in ascending key order. *)
Lemma order_by_sorted (l : list A) :
  StronglySorted (fun a b => key a <= key b) (order_by key l).
Proof.
  induction l as [|x l IH]; [constructor|].
  change (order_by key (x :: l)) with (insert_by key x (order_by key l)).
  now apply insert_by_sorted.
Qed.

End OrderBy.

End QueryMore.

(** ** Alerts *)

Module AlertsFacts.
Import Query QueryMore Alerts.
Local Open Scope string_scope.

Lemma StronglySorted_weaken {A : Type} (R R' : A -> A -> Prop) (l : list A) :
  (forall a b, R a b -> R' a b) -> StronglySorted R l -> StronglySorted R' l.
Proof.
  intros H Hs. induction Hs as [|a l Hl IH Ha]; constructor; [exact IH|].
  eapply Forall_impl; [|exact Ha]. intros b. apply H.
Qed.

Lemma active_iff (a : Alert) : active a = true <-> is_active a = Some true.
Proof.
  unfold active. destruct (is_active a) as [[]|]; split;
    intros; (reflexivity || discriminate).
Qed.

(** A successful fetch lists exactly the alerts of the table whose flag is
    TRUE (a NULL flag counts as inactive), each as often as the table holds
    it, newest first, and ends the loading state. *)
Theorem fetched_alerts_active_newest_first (table : list Alert) (p : panel) :
  let p' := fetchAlerts (select_alerts (Serving table)) p in
  Permutation (alerts p') (List.filter active table)
  /\ (forall a, In a (alerts p') <-> In a table /\ is_active a = Some true)
  /\ StronglySorted (fun a b => created_at b <= created_at a) (alerts p')
  /\ loading p' = false.
Proof.
  cbv zeta. unfold select_alerts, fetchAlerts, select_active.
  cbn [alerts loading].
  pose proof (order_by_perm (fun a => - created_at a) (List.filter active table))
    as Hperm.
  split; [exact Hperm|]. split; [|split; [|reflexivity]].
  - intros a. rewrite <- active_iff, <- filter_In. split; intros H.
    + now apply (Permutation_in _ Hperm).
    + now apply (Permutation_in _ (Permutation_sym Hperm)).
  - apply (StronglySorted_weaken
             (fun a b => - created_at a <= - created_at b)); [intros; lia|].
    apply (order_by_sorted (fun a => - created_at a)).
Qed.

(** A fetch that is answered with an error or does not complete keeps the
    alerts already listed, logs the error and ends the loading state. *)
Theorem failed_fetch_keeps_alerts (s : service) (p : panel) :
  (forall table, s <> Serving table) ->
  alerts (fetchAlerts (select_alerts s) p) = alerts p
  /\ loading (fetchAlerts (select_alerts s) p) = false
  /\ console (fetchAlerts (select_alerts s) p)
     = (console p ++ ["Error fetching alerts:"])%list.
Proof.
  intros H. destruct s as [table|e|]; [now destruct (H table)| |]; repeat split.
Qed.

Lemma failed_fetch_keeps_alerts_witness :
  let a := {| id := "a-1"; alert_message := "High tide at 18:00";
              sent_to := Some "all"; sender_id := "u-7"; report_id := None;
              created_at := 1757760000; is_active := Some true |} in
  let p := {| user := None; alerts := [a]; loading := true; sending := false;
              alertMessage := ""; selectedReport := ""; sentTo := "all";
              toasts := []; console := [] |} in
  alerts (fetchAlerts (select_alerts Rejecting) p) = [a].
Proof.
  intros a p. apply (failed_fetch_keeps_alerts Rejecting p). discriminate.
Defined.

(** *** Trimming *)

Lemma trim_start_first (s : string) (c : Ascii.ascii) :
  first_char (trim_start s) = Some c -> is_white_space c = false.
Proof.
  induction s as [|d s IH]; cbn; [discriminate|].
  destruct (is_white_space d) eqn:E; [exact IH|].
  cbn. now intros [= <-].
Qed.

Lemma trim_start_blank (s : string) : trim_start s = "" <-> blank s = true.
Proof.
  induction s as [|d s IH]; cbn; [split; reflexivity|].
  destruct (is_white_space d); cbn; [exact IH|]. split; discriminate.
Qed.

Lemma trim_end_blank (s : string) : trim_end s = "" <-> blank s = true.
Proof.
  induction s as [|d s IH]; cbn; [split; reflexivity|].
  destruct (trim_end s) as [|e t] eqn:E.
  - destruct (is_white_space d); cbn; [rewrite <- IH; split; reflexivity|].
    split; discriminate.
  - split; [discriminate|]. intros H. apply andb_true_iff in H.
    destruct H as [_ H]. apply IH in H. discriminate.
Qed.

Lemma trim_end_last (s : string) (c : Ascii.ascii) :
  last_char (trim_end s) = Some c -> is_white_space c = false.
Proof.
  induction s as [|d s IH]; cbn; [discriminate|].
  destruct (trim_end s) as [|e t] eqn:E.
  - destruct (is_white_space d) eqn:W; cbn; [discriminate|]. now intros [= <-].
  - cbn. exact IH.
Qed.

Lemma trim_end_first (s : string) (c : Ascii.ascii) :
  first_char (trim_end s) = Some c -> first_char s = Some c.
Proof.
  destruct s as [|d s]; cbn; [discriminate|].
  destruct (trim_end s) as [|e t].
  - destruct (is_white_space d); cbn; [discriminate|]. auto.
  - cbn. auto.
Qed.

Lemma blank_first (s : string) (c : Ascii.ascii) :
  first_char s = Some c -> is_white_space c = false -> blank s = false.
Proof. destruct s as [|d s]; cbn; [discriminate|]. now intros [= ->] ->. Qed.

(** [trim] leaves nothing exactly for a blank text, and what it leaves never
    starts or ends with white space. *)
Lemma trim_spec (s : string) :
  (trim s = "" <-> blank s = true) /\ trimmed (trim s).
Proof.
  unfold trim. split; [|split].
  - rewrite trim_end_blank. split; intros H.
    + apply trim_start_blank. destruct (trim_start s) as [|c t] eqn:E;
        [reflexivity|].
      assert (W : is_white_space c = false)
        by (apply (trim_start_first s); now rewrite E).
      cbn in H. rewrite W in H. discriminate.
    + apply trim_start_blank in H. now rewrite H.
  - intros c H. apply trim_end_first in H. now apply (trim_start_first s).
  - apply trim_end_last.
Qed.

Lemma falsy_trim (s : string) : Js.falsy_string (trim s) = blank s.
Proof.
  destruct (trim s) eqn:T; destruct (blank s) eqn:B; try reflexivity; exfalso;
    destruct (trim_spec s) as [[H1 H2] _]; rewrite T, B in *;
    first [ specialize (H1 eq_refl); discriminate
          | specialize (H2 eq_refl); discriminate ].
Qed.

(** *** Sending *)

(** With a blank message, or with nobody signed in, [sendAlert] does nothing
    at all: no request, no message to the user, no change of the panel. *)
Theorem blank_alert_is_ignored (b : backend) (p : panel) :
  blank (alertMessage p) = true \/ no_user_id (user p) = true ->
  sendAlert b p = (b, p).
Proof.
  intros H. unfold sendAlert. rewrite falsy_trim.
  destruct H as [-> | ->]; [reflexivity|]. now rewrite orb_true_r.
Qed.

(** An alert that is sent is stored once, after the alerts already accepted,
    with the message trimmed and not empty, the sender's identifier, the
    chosen audience, and the related report or null when none is selected;
    the draft is then reset and the success message shown. *)
Theorem sent_alert_is_trimmed (b : backend) (p : panel) (u : Roles.User) :
  blank (alertMessage p) = false -> user p = Some u ->
  Roles.id u <> "" -> insertError b = None ->
  exists a,
    accepted (fst (sendAlert b p)) = (accepted b ++ [a])%list
    /\ ins_alert_message a = trim (alertMessage p)
    /\ ins_alert_message a <> "" /\ trimmed (ins_alert_message a)
    /\ ins_sender_id a = Roles.id u
    /\ ins_sent_to a = sentTo p
    /\ (ins_report_id a = None <-> selectedReport p = "")
    /\ alertMessage (snd (sendAlert b p)) = ""
    /\ selectedReport (snd (sendAlert b p)) = ""
    /\ sentTo (snd (sendAlert b p)) = "all"
    /\ sending (snd (sendAlert b p)) = false
    /\ toasts (snd (sendAlert b p)) = (toasts p ++ [alert_sent])%list.
Proof.
  intros Hb Hu Hid He. unfold sendAlert. rewrite falsy_trim, Hb, Hu. cbn.
  rewrite (RolesFacts.truthy_id u Hid), He. cbn.
  eexists. split; [reflexivity|]. cbn.
  destruct (trim_spec (alertMessage p)) as [Hblank Htrim].
  repeat split; try apply Htrim.
  - intros E. apply Hblank in E. congruence.
  - unfold Intake.string_or_null.
    destruct (selectedReport p); cbn; [reflexivity|discriminate].
  - unfold Intake.string_or_null.
    now intros ->.
Qed.

(** When the backend refuses the alert nothing is stored, the drafted message
    and selections are kept for another attempt, and the message shown is the
    fixed text, which does not disclose the backend's error. *)
Theorem refused_alert_keeps_draft (b : backend) (p : panel)
    (e : Roles.PostgrestError) :
  blank (alertMessage p) = false -> no_user_id (user p) = false ->
  insertError b = Some e ->
  fst (sendAlert b p) = b
  /\ alertMessage (snd (sendAlert b p)) = alertMessage p
  /\ selectedReport (snd (sendAlert b p)) = selectedReport p
  /\ sentTo (snd (sendAlert b p)) = sentTo p
  /\ sending (snd (sendAlert b p)) = false
  /\ toasts (snd (sendAlert b p)) = (toasts p ++ [alert_failed])%list.
Proof.
  intros Hb Hu He. unfold sendAlert. rewrite falsy_trim, Hb, Hu, He.
  repeat split.
Qed.

(** A message of spaces only, drafted by a signed-in user. *)
Lemma blank_alert_is_ignored_witness :
  sendAlert accepting_alerts (drafting (Some Roles.coast_guard) "   ")
  = (accepting_alerts, drafting (Some Roles.coast_guard) "   ").
Proof.
  apply (blank_alert_is_ignored accepting_alerts
           (drafting (Some Roles.coast_guard) "   ")).
  left. reflexivity.
Defined.

(** A message drafted with spaces around it is stored without them. *)
Lemma sent_alert_is_trimmed_witness :
  exists a,
    accepted (fst (sendAlert accepting_alerts
                     (drafting (Some Roles.coast_guard) "  Evacuate the jetty  ")))
    = [a]
    /\ ins_alert_message a = "Evacuate the jetty".
Proof.
  destruct (sent_alert_is_trimmed accepting_alerts
              (drafting (Some Roles.coast_guard) "  Evacuate the jetty  ")
              Roles.coast_guard eq_refl eq_refl)
    as (a & Ha & Hm & _); [discriminate | reflexivity |].
  exists a. split; [exact Ha | exact Hm].
Defined.

(** The same draft refused by the backend is still in the panel. *)
Lemma refused_alert_keeps_draft_witness :
  alertMessage
    (snd (sendAlert refusing_alerts
            (drafting (Some Roles.coast_guard) "  Evacuate the jetty  ")))
  = "  Evacuate the jetty  ".
Proof.
  destruct (refused_alert_keeps_draft refusing_alerts
              (drafting (Some Roles.coast_guard) "  Evacuate the jetty  ")
              {| Roles.code := "42501";
                 Roles.message := "new row violates row-level security policy" |}
              eq_refl eq_refl eq_refl) as (_ & Hm & _).
  exact Hm.
Defined.

End AlertsFacts.

(** ** The index page *)

Module IndexFacts.
Import Roles RolesFacts Policies Guard IndexPage.

(** The dashboard is on screen only for a signed-in user whose resolved role
    has at least the rank of authority, and only once it is opened. When the
    role service answers from its table, such a user also passes the storage
    layer's "authority or admin" check: the page never opens the dashboard for
    somebody the storage layer would refuse the reports. The report form is
    never on screen without a signed-in user. *)
Theorem dashboard_only_for_authorities (loading isReportFormOpen isDashboardOpen : bool)
    (s : service) (user : option User) :
  let v := Index loading user (fetchUserRole s user)
             isReportFormOpen isDashboardOpen in
  (dashboard_on_screen v = true ->
   loading = false /\ isDashboardOpen = true
   /\ exists u r, user = Some u
                  /\ current_role (fetchUserRole s user) = Some r
                  /\ roleHierarchy authority <= roleHierarchy r)
  /\ (forall t, s = Serving t -> dashboard_on_screen v = true ->
        exists u, user = Some u /\ authority_or_admin t (id u) = true)
  /\ (report_form_on_screen v = true -> user <> None).
Proof.
  cbv zeta.
  assert (Hmain : dashboard_on_screen
                    (Index loading user (fetchUserRole s user)
                       isReportFormOpen isDashboardOpen) = true ->
                  loading = false /\ isDashboardOpen = true
                  /\ exists u r, user = Some u
                       /\ current_role (fetchUserRole s user) = Some r
                       /\ roleHierarchy authority <= roleHierarchy r).
  { unfold Index. destruct loading; [discriminate|].
    destruct user as [u|]; [|discriminate]. cbn [dashboard_on_screen].
    destruct (RoleGuard (fetchUserRole s (Some u)) authority) eqn:G;
      try discriminate.
    destruct isDashboardOpen; [|discriminate]. intros _.
    split; [reflexivity|]. split; [reflexivity|].
    unfold RoleGuard in G. rewrite GuardFacts.fetchUserRole_loaded in G.
    unfold hasRole in *.
    destruct (current_role (fetchUserRole s (Some u))) as [r|]; [|discriminate].
    exists u, r. split; [reflexivity|]. split; [reflexivity|].
    destruct (Z.geb_spec (roleHierarchy r) (roleHierarchy authority)) as [Hge|Hlt];
      [lia | discriminate]. }
  split; [exact Hmain|]. split.
  - intros t -> Hv. destruct (Hmain Hv) as (_ & _ & u & r & -> & Hr & Hrank).
    exists u. split; [reflexivity|].
    assert (Hid : id u <> ""%string).
    { intros E. unfold fetchUserRole in Hr. rewrite E in Hr. discriminate. }
    destruct (rows_of t (id u)) as [|x l] eqn:R.
    + apply rows_of_nil in R.
      rewrite (fetchUserRole_default (Serving t) u Hid R) in Hr.
      injection Hr as <-. cbn in Hrank. lia.
    + assert (Hrow : ~ no_role_row t (id u))
        by (intros Hno; apply rows_of_nil in Hno; congruence).
      destruct (fetchUserRole_lowest t u Hid Hrow) as [r' [E [Hin _]]].
      rewrite E in Hr. injection Hr as ->.
      unfold authority_or_admin. apply orb_true_iff.
      destruct r; cbn in Hrank; [lia | left | right];
        now apply RolesMore.has_role_In.
  - unfold Index. destruct loading; [discriminate|].
    destruct user; [intros _; discriminate | discriminate].
Qed.

(** A user with a single authority row who has opened the dashboard. *)
Lemma dashboard_only_for_authorities_witness :
  let t := [ {| user_id := "u-7"; role := authority |} ] in
  let user := Some {| id := "u-7" |} in
  dashboard_on_screen
    (Index false user (fetchUserRole (Serving t) user) false true) = true
  /\ exists u, user = Some u /\ authority_or_admin t (id u) = true.
Proof.
  intros t user.
  assert (Hv : dashboard_on_screen
                 (Index false user (fetchUserRole (Serving t) user) false true)
               = true) by reflexivity.
  split; [exact Hv|].
  destruct (dashboard_only_for_authorities false false true (Serving t) user)
    as (_ & H & _).
  exact (H t eq_refl Hv).
Defined.

End IndexFacts.
